(** * ProjectAnalyzer: import resolution and dead-file classification

    A shallow embedding of [project_analyzer.py] and the properties of its
    import resolver, dependency graph and used/unused classification.

    Conventions of the model.
    - Python [str] values are Rocq [string]s; a character of code [n] stands
      for the code point U+00[n].
    - [os.path] is [posixpath] and [os.sep] is ["/"].
    - The file system, the UTF-8 decoder and the Python parser are outside
      the program: they are the fields of a [World], whose operations return
      an [outcome] (a value or a raised exception).
    - A method of [ProjectAnalyzer] is a computation over the object's
      fields that may raise ([M]); mutations made before a raise persist, as
      they do in Python.
    - The [logging] calls write to a log file and have no effect on the
      analyzer; they are kept as computations that do nothing. *)

From Stdlib Require Import String Ascii.
From stdpp Require Import base option list gmap sets strings.

Open Scope string_scope.
Set Warnings "-clear-no-such-hyp".

(** ** Python [str] methods used by the analyzer *)

Module PyStr.

(** [s.startswith(p)] *)
Definition startswith (s p : string) : bool := String.prefix p s.

(** [s.endswith(suf)]: [suf] is [s] itself or a suffix of its tail. *)
Fixpoint endswith (s suf : string) : bool :=
  String.eqb s suf ||
  match s with
  | EmptyString => false
  | String _ s' => endswith s' suf
  end.

(** [s.endswith((suf1, suf2, ...))] *)
Definition endswith_any (s : string) (sufs : list string) : bool :=
  existsb (endswith s) sufs.

(** [s.replace(old, new)] for a non-empty [old] (every call of the source
    passes a literal): occurrences are found left to right and do not
    overlap.  [skip] counts the characters of a matched occurrence that are
    still to be passed over. *)
Fixpoint replace_from (skip : nat) (old new s : string) : string :=
  match s with
  | EmptyString => EmptyString
  | String c s' =>
      match skip with
      | S k => replace_from k old new s'
      | O =>
          if String.prefix old s
          then new +:+ replace_from (String.length old - 1) old new s'
          else String c (replace_from 0 old new s')
      end
  end.

Definition replace (s old new : string) : string := replace_from 0 old new s.

(** [s.split(sep)] for a one-character separator. *)
Fixpoint split (sep : ascii) (s : string) : list string :=
  match s with
  | EmptyString => [EmptyString]
  | String c s' =>
      if Ascii.eqb c sep then EmptyString :: split sep s'
      else match split sep s' with
           | h :: t => String c h :: t
           | [] => [String c EmptyString]
           end
  end.

(** [sep.join(parts)] *)
Fixpoint join (sep : string) (parts : list string) : string :=
  match parts with
  | [] => EmptyString
  | [p] => p
  | p :: rest => p +:+ sep +:+ join sep rest
  end.

(** [s.rfind(c) + 1]: [0] when [c] does not occur. *)
Fixpoint rfind_succ (c : ascii) (s : string) : nat :=
  match s with
  | EmptyString => 0
  | String d s' =>
      match rfind_succ c s' with
      | S k => S (S k)
      | O => if Ascii.eqb d c then 1 else 0
      end
  end.

(** [s.rstrip(c)] *)
Fixpoint rstrip (c : ascii) (s : string) : string :=
  match s with
  | EmptyString => EmptyString
  | String d s' =>
      match rstrip c s' with
      | EmptyString => if Ascii.eqb d c then EmptyString else String d EmptyString
      | r => String d r
      end
  end.

(** [s == c * len(s)] *)
Fixpoint all_char (c : ascii) (s : string) : bool :=
  match s with
  | EmptyString => true
  | String d s' => Ascii.eqb d c && all_char c s'
  end.

End PyStr.

(** ** [posixpath]: the functions of [os.path] the analyzer calls *)

Module PosixPath.
Import PyStr.

Definition sep_char : ascii := "/"%char.
(** [os.sep] *)
Definition sep : string := "/".

(** One step of [os.path.join]'s loop over the later arguments. *)
Definition join2 (path b : string) : string :=
  if startswith b sep then b
  else if String.eqb path "" || endswith path sep then path +:+ b
  else path +:+ sep +:+ b.

(** [os.path.join(a, *p)] *)
Definition join (a : string) (p : list string) : string :=
  fold_left join2 p a.

(** [os.path.dirname(p)] *)
Definition dirname (p : string) : string :=
  let i := rfind_succ sep_char p in
  let head := String.substring 0 i p in
  if negb (String.eqb head "") && negb (all_char sep_char head)
  then rstrip sep_char head
  else head.

(** The loop of [normpath] over the components, [new_comps] kept reversed
    (its last element first). *)
Fixpoint norm_comps (initial_slashes : nat) (comps new_comps : list string)
  : list string :=
  match comps with
  | [] => rev new_comps
  | comp :: rest =>
      if String.eqb comp "" || String.eqb comp "."
      then norm_comps initial_slashes rest new_comps
      else if negb (String.eqb comp "..")
              || (Nat.eqb initial_slashes 0 && bool_decide (new_comps = []))
              || match new_comps with
                 | last :: _ => String.eqb last ".."
                 | [] => false
                 end
      then norm_comps initial_slashes rest (comp :: new_comps)
      else norm_comps initial_slashes rest (tail new_comps)
  end.

(** [os.path.normpath(path)] *)
Definition normpath (path : string) : string :=
  if String.eqb path "" then "."
  else
    let initial_slashes :=
      if startswith path sep then
        if startswith path "//" && negb (startswith path "///") then 2 else 1
      else 0 in
    let comps := norm_comps initial_slashes (split sep_char path) [] in
    let path' := PyStr.join sep comps in
    let path'' :=
      match initial_slashes with
      | 0 => path'
      | 1 => sep +:+ path'
      | _ => "//" +:+ path'
      end in
    if String.eqb path'' "" then "." else path''.

End PosixPath.

(** ** The import extractors *)

(** The pattern of [_analyze_dart_imports]: the word [import], [\s+], a
    quote (single or double), the lazy group [(.+?)] and a quote again,
    matched the way [re.finditer] does: matches are searched left to right
    and do not overlap.

    The pattern has a single way to match at a given position: the greedy
    [\s+] is followed by a quote, which is not a space, so giving back a space
    never helps; the lazy [.+?] stops at the first quote after its first
    character, and fails on a newline, which [.] does not match. *)
Module DartRegex.

Definition newline : ascii := ascii_of_nat 10.
Definition double_quote : ascii := ascii_of_nat 34.

(** [\s] on a [str] pattern: [Py_UNICODE_ISSPACE]. *)
Definition is_space (c : ascii) : bool :=
  let n := nat_of_ascii c in
  (Nat.leb 9 n && Nat.leb n 13) || (Nat.leb 28 n && Nat.leb n 32)
  || Nat.eqb n 133 || Nat.eqb n 160.

(** The character class of the two quotes, single and double. *)
Definition is_quote (c : ascii) : bool :=
  Ascii.eqb c "'"%char || Ascii.eqb c double_quote.

(** [s[n:]] *)
Fixpoint skip (n : nat) (s : string) : string :=
  match n, s with
  | S k, String _ s' => skip k s'
  | _, _ => s
  end.

(** [\s*]: the spaces at the head of [s] are dropped, and counted. *)
Fixpoint span_space (s : string) : nat * string :=
  match s with
  | String c s' =>
      if is_space c then let '(n, r) := span_space s' in (S n, r)
      else (0, s)
  | EmptyString => (0, s)
  end.

(** [.*?] and a quote: the characters before the first quote, none a
    newline, and the rest after that quote. *)
Fixpoint lazy_until_quote (s : string) : option (string * string) :=
  match s with
  | EmptyString => None
  | String c s' =>
      if is_quote c then Some (EmptyString, s')
      else if Ascii.eqb c newline then None
      else match lazy_until_quote s' with
           | Some (g, r) => Some (String c g, r)
           | None => None
           end
  end.

(** [(.+?)] and a quote: the first character of the group may itself be a
    quote. *)
Definition group_then_quote (s : string) : option (string * string) :=
  match s with
  | EmptyString => None
  | String c s' =>
      if Ascii.eqb c newline then None
      else match lazy_until_quote s' with
           | Some (g, r) => Some (String c g, r)
           | None => None
           end
  end.

(** A match of the whole pattern at the head of [s]: [match.group(1)] and
    the length of the match. *)
Definition match_at (s : string) : option (string * nat) :=
  if String.prefix "import" s then
    match span_space (skip 6 s) with
    | (0, _) => None
    | (S _, String q r) =>
        if is_quote q then
          match group_then_quote r with
          | Some (g, rest) => Some (g, String.length s - String.length rest)
          | None => None
          end
        else None
    | (S _, EmptyString) => None
    end
  else None.

(** [skip] counts the characters of the last match still to be passed. *)
Fixpoint finditer_from (skip : nat) (s : string) : list string :=
  match s with
  | EmptyString => []
  | String _ s' =>
      match skip with
      | S k => finditer_from k s'
      | O =>
          match match_at s with
          | Some (g, len) => g :: finditer_from (len - 1) s'
          | None => finditer_from 0 s'
          end
      end
  end.

(** [[m.group(1) for m in re.finditer(import_pattern, content)]] *)
Definition finditer_groups (content : string) : list string :=
  finditer_from 0 content.

End DartRegex.

(** The nodes [ast.walk] yields, as far as [_analyze_python_imports] tells
    them apart. *)
Inductive ast_node :=
| Import (names : list string)        (** [ast.Import]: the [alias.name]s *)
| ImportFrom (module : option string) (** [ast.ImportFrom]: [node.module] *)
| OtherNode.

(** ** Exceptions and the outside world *)

(** Every exception here is an instance of [Exception]. *)
Inductive exn :=
| OSError
| UnicodeDecodeError
| SyntaxError
| ValueError
| OtherException (msg : string).

Inductive outcome (A : Type) :=
| Ok (a : A)
| Raise (e : exn).
Arguments Ok {A} a.
Arguments Raise {A} e.

Record World := {
  (** [list(os.walk(top))]: the triples [(root, dirs, files)] *)
  os_walk : string -> list (string * list string * list string);
  (** [open(path, 'r', encoding='utf-8').read()] *)
  open_read : string -> outcome string;
  (** [list(ast.walk(ast.parse(content)))] *)
  ast_parse : string -> outcome (list ast_node);
  (** [os.path.exists(path)] *)
  os_path_exists : string -> outcome bool;
}.

(** ** The analyzer object *)

Record ProjectAnalyzer := {
  project_root : string;
  file_dependencies : gmap string (gset string);
  all_files : gset string;
  used_files : gset string;
  unused_files : gset string;
}.

(** [ProjectAnalyzer.__init__] *)
Definition __init__ (project_root : string) : ProjectAnalyzer :=
  {| project_root := project_root;
     file_dependencies := ∅;
     all_files := ∅;
     used_files := ∅;
     unused_files := ∅ |}.

Definition set_file_dependencies (g : gmap string (gset string))
  (self : ProjectAnalyzer) : ProjectAnalyzer :=
  {| project_root := project_root self;
     file_dependencies := g;
     all_files := all_files self;
     used_files := used_files self;
     unused_files := unused_files self |}.

Definition set_all_files (fs : gset string) (self : ProjectAnalyzer)
  : ProjectAnalyzer :=
  {| project_root := project_root self;
     file_dependencies := file_dependencies self;
     all_files := fs;
     used_files := used_files self;
     unused_files := unused_files self |}.

Definition set_used_files (fs : gset string) (self : ProjectAnalyzer)
  : ProjectAnalyzer :=
  {| project_root := project_root self;
     file_dependencies := file_dependencies self;
     all_files := all_files self;
     used_files := fs;
     unused_files := unused_files self |}.

Definition set_unused_files (fs : gset string) (self : ProjectAnalyzer)
  : ProjectAnalyzer :=
  {| project_root := project_root self;
     file_dependencies := file_dependencies self;
     all_files := all_files self;
     used_files := used_files self;
     unused_files := fs |}.

(** [d[k].add(v)] on a [defaultdict(set)]: a missing key starts from the
    empty set. *)
Definition dict_add (k v : string) (d : gmap string (gset string))
  : gmap string (gset string) :=
  <[k := default ∅ (d !! k) ∪ {[v]}]> d.

(** ** Computations on the analyzer that may raise *)

Definition M (A : Type) : Type := ProjectAnalyzer -> outcome A * ProjectAnalyzer.

#[global] Instance M_ret : MRet M := λ A a self, (Ok a, self).

#[global] Instance M_bind : MBind M := λ A B k m self,
  match m self with
  | (Ok a, self') => k a self'
  | (Raise e, self') => (Raise e, self')
  end.

(** The object as it is now. *)
Definition get_self : M ProjectAnalyzer := λ self, (Ok self, self).

(** An assignment to a field, or a mutation of the set or dict it holds. *)
Definition update (f : ProjectAnalyzer -> ProjectAnalyzer) : M unit :=
  λ self, (Ok tt, f self).

(** A call into the world. *)
Definition call {A} (o : outcome A) : M A := λ self, (o, self).

(** [try: body except Exception as e: handler] *)
Definition try_except {A} (body : M A) (handler : exn -> M A) : M A :=
  λ self,
    match body self with
    | (Ok a, self') => (Ok a, self')
    | (Raise e, self') => handler e self'
    end.

(** [for x in l: body] *)
Fixpoint for_each {A} (l : list A) (body : A -> M unit) : M unit :=
  match l with
  | [] => mret tt
  | x :: l' => body x;; for_each l' body
  end.

(** The [logging] calls. *)
Definition logging_info : M unit := mret tt.
Definition logging_warning (e : exn) : M unit := mret tt.
Definition logging_error (e : exn) : M unit := mret tt.
Definition logging_debug (e : exn) : M unit := mret tt.

(** ** The methods of [ProjectAnalyzer] *)

(** The value of the local [target_path] of [_resolve_import]: the candidate
    path, by the first of the three rules that applies. *)
Definition target_path_of (project_root source_file import_path : string)
  : string :=
  if PyStr.endswith import_path ".py" then
    PosixPath.normpath
      (PosixPath.join (PosixPath.dirname source_file) [import_path])
  else if PyStr.startswith import_path "package:" then
    PosixPath.normpath
      (PosixPath.join project_root
         ["lib";
          PyStr.replace (PyStr.replace import_path "package:" "")
            "/" PosixPath.sep])
  else
    PosixPath.normpath
      (PosixPath.join (PosixPath.dirname source_file)
         [PyStr.replace import_path "." PosixPath.sep +:+ ".dart"]).

(** The suffixes [_collect_all_files] keeps. *)
Definition collected_suffixes : list string :=
  [".py"; ".dart"; ".kt"; ".java"; ".xml"].

Section Analyzer.
Context (w : World).

Definition _collect_all_files : M unit :=
  self ← get_self;
  for_each (os_walk w (project_root self)) (λ '(root, _, files),
    for_each files (λ file,
      if PyStr.endswith_any file collected_suffixes then
        let full_path := PosixPath.join root [file] in
        update (λ self, set_all_files (all_files self ∪ {[full_path]}) self)
      else mret tt));;
  logging_info.

Definition _resolve_import (source_file import_path : string) : M unit :=
  try_except
    (self ← get_self;
     let target_path :=
       target_path_of (project_root self) source_file import_path in
     found ← call (os_path_exists w target_path);
     if found : bool then
       update (λ self,
         set_file_dependencies
           (dict_add source_file target_path (file_dependencies self)) self)
     else mret tt)
    logging_debug.

Definition _analyze_python_imports (file_path content : string) : M unit :=
  try_except
    (tree ← call (ast_parse w content);
     for_each tree (λ node,
       match node with
       | Import names =>
           for_each names (λ name, _resolve_import file_path name)
       | ImportFrom module =>
           match module with
           | Some m =>
               if String.eqb m "" then mret tt
               else _resolve_import file_path m
           | None => mret tt
           end
       | OtherNode => mret tt
       end))
    logging_warning.

Definition _analyze_dart_imports (file_path content : string) : M unit :=
  for_each (DartRegex.finditer_groups content) (λ import_path,
    _resolve_import file_path import_path).

Definition _analyze_imports : M unit :=
  self ← get_self;
  for_each (elements (all_files self)) (λ file_path,
    try_except
      (content ← call (open_read w file_path);
       (if PyStr.endswith file_path ".py" then
          _analyze_python_imports file_path content
        else if PyStr.endswith file_path ".dart" then
          _analyze_dart_imports file_path content
        else mret tt);;
       update (λ self,
         set_used_files (used_files self ∪ {[file_path]}) self))
      logging_error).

(** [used_files_set] is the very set [self.used_files] holds, so that
    [used_files_set.update(deps)] changes the field. *)
Definition _find_unused_files : M unit :=
  self ← get_self;
  let all_files_set := all_files self in
  for_each (map_to_list (file_dependencies self)).*2 (λ deps,
    update (λ self, set_used_files (used_files self ∪ deps) self));;
  self ← get_self;
  update (set_unused_files (all_files_set ∖ used_files self)).

(** [_log_results] only reads the analyzer, to write the report to the
    log. *)
Definition _log_results : M unit := logging_info.

Definition analyze_project : M unit :=
  _collect_all_files;;
  _analyze_imports;;
  _find_unused_files;;
  _log_results.

(** The analyzer after [ProjectAnalyzer(root).analyze_project()], with
    what the call returned or raised. *)
Definition run_analysis (root : string) : outcome unit * ProjectAnalyzer :=
  analyze_project (__init__ root).

(** The analyzer after the first two phases, before the classification. *)
Definition run_scan (root : string) : outcome unit * ProjectAnalyzer :=
  (_collect_all_files;; _analyze_imports) (__init__ root).

End Analyzer.

(** ** A file system to run the analyzer on

    A tree of directories and regular files, without links.  The working
    directory of the process is the root of the tree, so a relative path is
    looked up from the root as well. *)
Module FileSystem.

#[warnings="-register-all"]
Inductive node :=
| File (content : outcome string)      (** what reading it as UTF-8 gives *)
| Dir (entries : list (string * node)).

Definition entry (name : string) (entries : list (string * node))
  : option node :=
  snd <$> List.find (λ e, String.eqb (fst e) name) entries.

(** Path resolution, component by component; [ancestors] are the
    directories above [cur], the nearest first. *)
Fixpoint resolve (comps : list string) (ancestors : list node) (cur : node)
  : option node :=
  match comps with
  | [] => Some cur
  | comp :: rest =>
      match cur with
      | File _ => None
      | Dir entries =>
          if String.eqb comp "" || String.eqb comp "." then
            resolve rest ancestors cur
          else if String.eqb comp ".." then
            match ancestors with
            | parent :: above => resolve rest above parent
            | [] => resolve rest [] cur
            end
          else
            match entry comp entries with
            | Some child => resolve rest (cur :: ancestors) child
            | None => None
            end
      end
  end.

Definition lookup (root : node) (path : string) : option node :=
  if String.eqb path "" then None
  else resolve (PyStr.split PosixPath.sep_char path) [] root.

Definition is_dir (n : node) : bool :=
  match n with Dir _ => true | File _ => false end.

Definition names (p : node -> bool) (entries : list (string * node))
  : list string :=
  fst <$> List.filter (λ e, p (snd e)) entries.

(** [os.walk], top down, from the directory [n] named [top]. *)
Fixpoint walk (top : string) (n : node)
  : list (string * list string * list string) :=
  match n with
  | File _ => []
  | Dir entries =>
      (top, names is_dir entries, names (λ c, negb (is_dir c)) entries)
      :: (fix below (es : list (string * node)) :=
            match es with
            | [] => []
            | (name, child) :: es' =>
                (walk (PosixPath.join top [name]) child ++ below es')%list
            end) entries
  end.

(** The parser on the contents a scenario uses; any other content is a
    syntax error. *)
Definition parser_of (table : list (string * list ast_node))
  (content : string) : outcome (list ast_node) :=
  match List.find (λ e, String.eqb (fst e) content) table with
  | Some e => Ok (snd e)
  | None => Raise SyntaxError
  end.

Definition world (root : node) (table : list (string * list ast_node))
  : World :=
  {| os_walk top :=
       match lookup root top with
       | Some n => walk top n
       | None => []
       end;
     open_read path :=
       match lookup root path with
       | Some (File content) => content
       | Some (Dir _) => Raise OSError
       | None => Raise OSError
       end;
     ast_parse := parser_of table;
     os_path_exists path := Ok (bool_decide (is_Some (lookup root path))) |}.

End FileSystem.

(** ** The effect of each method, as a function on the analyzer

    The methods never raise; what each one does to the analyzer is given
    here as a plain function, and proved equal to the method below. *)

(** Merging a set of targets into the entry of [src]; nothing happens, and no
    key is made, when the set is empty. *)
Definition add_targets (src : string) (T : gset string)
  (g : gmap string (gset string)) : gmap string (gset string) :=
  if decide (T = ∅) then g else <[src := default ∅ (g !! src) ∪ T]> g.

(** The raw imports one node of the tree yields. *)
Definition node_imports (node : ast_node) : list string :=
  match node with
  | Import names => names
  | ImportFrom (Some m) => if String.eqb m "" then [] else [m]
  | ImportFrom None => []
  | OtherNode => []
  end.

Definition record_edge (source_file : string) (target : option string)
  (self : ProjectAnalyzer) : ProjectAnalyzer :=
  match target with
  | Some t =>
      set_file_dependencies
        (dict_add source_file t (file_dependencies self)) self
  | None => self
  end.

(** The analyzer with the edge [source_file -> target] recorded. *)
Definition with_edge (source_file target : string) (self : ProjectAnalyzer)
  : ProjectAnalyzer :=
  set_file_dependencies
    (dict_add source_file target (file_dependencies self)) self.

Definition add_files (l : list string) (self : ProjectAnalyzer)
  : ProjectAnalyzer :=
  foldl (λ s p, set_all_files (all_files s ∪ {[p]}) s) self l.

(** The set [used_files_set] has become when [_find_unused_files] ends. *)
Definition used_and_targets (self : ProjectAnalyzer) : gset string :=
  foldl (λ u deps, u ∪ deps) (used_files self)
    (map_to_list (file_dependencies self)).*2.

(** The effect of [_find_unused_files]. *)
Definition classify (self : ProjectAnalyzer) : ProjectAnalyzer :=
  set_unused_files (all_files self ∖ used_and_targets self)
    (set_used_files (used_and_targets self) self).

(** The targets of the edges of a graph. *)
Definition edge_targets (g : gmap string (gset string)) : gset string :=
  ⋃ (map_to_list g).*2.

Section Effects.
Context (w : World).

(** The target [_resolve_import] records for an import, if any: the
    candidate path when [os.path.exists] returns [True] for it. *)
Definition resolved (root source_file import_path : string) : option string :=
  let target_path := target_path_of root source_file import_path in
  match os_path_exists w target_path with
  | Ok true => Some target_path
  | _ => None
  end.

Definition resolve_all (source_file : string) (imports : list string)
  (self : ProjectAnalyzer) : ProjectAnalyzer :=
  foldl (λ s imp,
           record_edge source_file
             (resolved (project_root s) source_file imp) s)
    self imports.

(** The raw imports of a Python file; none when it does not parse. *)
Definition python_imports (content : string) : list string :=
  match ast_parse w content with
  | Ok tree => concat (node_imports <$> tree)
  | Raise _ => []
  end.

(** The raw imports extracted from a file of that name and content. *)
Definition raw_imports (file_path content : string) : list string :=
  if PyStr.endswith file_path ".py" then python_imports content
  else if PyStr.endswith file_path ".dart" then
    DartRegex.finditer_groups content
  else [].

(** One turn of the loop of [_analyze_imports]. *)
Definition scan_file (file_path : string) (self : ProjectAnalyzer)
  : ProjectAnalyzer :=
  match open_read w file_path with
  | Ok content =>
      let self' := resolve_all file_path (raw_imports file_path content) self in
      set_used_files (used_files self' ∪ {[file_path]}) self'
  | Raise _ => self
  end.

(** The paths [_collect_all_files] adds, in the order of the walk. *)
Definition collected (top : string) : list string :=
  concat ((λ '(root, _, files),
            (λ file, PosixPath.join root [file]) <$>
              List.filter (λ file, PyStr.endswith_any file collected_suffixes)
                files) <$> os_walk w top).

(** The targets recorded for a list of raw imports of one file. *)
Definition targets (root source_file : string) (imports : list string)
  : gset string :=
  list_to_set (omap (resolved root source_file) imports).

(** The raw imports of a collected file; none when it cannot be read. *)
Definition file_imports (file_path : string) : list string :=
  match open_read w file_path with
  | Ok content => raw_imports file_path content
  | Raise _ => []
  end.

Definition file_targets (root file_path : string) : gset string :=
  targets root file_path (file_imports file_path).

Definition readable (file_path : string) : Prop :=
  ∃ content, open_read w file_path = Ok content.

#[global] Instance readable_dec file_path : Decision (readable file_path).
Proof.
  unfold readable. destruct (open_read w file_path) as [content|e].
  - left. by exists content.
  - right. by intros [content ?].
Defined.

(** The files [_collect_all_files] finds under [root]. *)
Definition universe (root : string) : gset string :=
  list_to_set (collected root).

(** The analyzer between [_analyze_imports] and [_find_unused_files]. *)
Definition scan_state (root : string) : ProjectAnalyzer :=
  let self := add_files (collected root) (__init__ root) in
  foldl (λ s f, scan_file f s) self (elements (all_files self)).

(** The dependency graph after the files of [l] were scanned. *)
Definition graph_after (root : string) (l : list string)
  (g : gmap string (gset string)) : gmap string (gset string) :=
  foldl (λ g f, add_targets f (file_targets root f) g) g l.

(** ** The outputs of an analysis *)

(** The analyzer after [analyze_project]. *)
Definition final_state (root : string) : ProjectAnalyzer :=
  snd (run_analysis w root).

Definition DependencyGraph (root : string) : gmap string (gset string) :=
  file_dependencies (final_state root).

(** [self.all_files] after the run. *)
Definition FileUniverse (root : string) : gset string :=
  all_files (final_state root).

(** [self.used_files] after the run. *)
Definition UsedSet (root : string) : gset string :=
  used_files (final_state root).

(** [self.unused_files] after the run. *)
Definition UnusedSet (root : string) : gset string :=
  unused_files (final_state root).

(** [self.all_files] when [_collect_all_files] has returned. *)
Definition CollectedSet (root : string) : gset string :=
  all_files (snd (_collect_all_files w (__init__ root))).

(** [self.used_files] when [_analyze_imports] has returned: the files
    scanned as sources. *)
Definition ScannedSet (root : string) : gset string :=
  used_files (snd (run_scan w root)).

End Effects.

(** The path [_collect_all_files] gives a file found in the root itself. *)
Definition in_root (root name : string) : string :=
  PosixPath.join root [name].

(** ** The resolution rules as the specification words them *)

Module Rules.

(** Every character [c] of [s] becomes [d]. *)
Fixpoint substitute_char (c d : ascii) (s : string) : string :=
  match s with
  | EmptyString => EmptyString
  | String x s' => String (if Ascii.eqb x c then d else x) (substitute_char c d s')
  end.

(** [sub] occurs in [s]. *)
Fixpoint occurs (sub s : string) : bool :=
  String.prefix sub s ||
  match s with
  | EmptyString => false
  | String _ s' => occurs sub s'
  end.

(** Rule 1: the import, taken as a path relative to the directory of the
    importing file, normalized. *)
Definition sibling_candidate (source_file import_path : string) : string :=
  PosixPath.normpath
    (PosixPath.join2 (PosixPath.dirname source_file) import_path).

(** Rule 2: the import without its [package:] marker, its slashes turned
    into the directory separator, joined to the [lib] directory of the
    project and normalized. *)
Definition package_candidate (project_root import_path : string) : string :=
  PosixPath.normpath
    (PosixPath.join2 (PosixPath.join2 project_root "lib")
       (substitute_char "/" PosixPath.sep_char
          (DartRegex.skip (String.length "package:") import_path))).

(** Rule 3: every dot turned into the directory separator, the suffix
    [.dart] appended, relative to the directory of the importing file,
    normalized. *)
Definition dotted_candidate (source_file import_path : string) : string :=
  PosixPath.normpath
    (PosixPath.join2 (PosixPath.dirname source_file)
       (substitute_char "." PosixPath.sep_char import_path +:+ ".dart")).

End Rules.

(** ** Projects to run the analyzer on *)

Module Scenario.
Import FileSystem.

(** What [ast.walk] yields on the contents used below: the module node
    alone for an empty file; the module, the import statement and its alias
    for [import b]. *)
Definition python_table : list (string * list ast_node) :=
  [("", [OtherNode]);
   ("import b", [OtherNode; Import ["b"]; OtherNode])].

(** [/proj] holds [a.py], which imports [b], and the empty [b.py] and
    [c.py]. *)
Definition three_files : node :=
  Dir [("proj",
        Dir [("a.py", File (Ok "import b"));
             ("b.py", File (Ok ""));
             ("c.py", File (Ok ""))])].

Definition three_files_world : World := world three_files python_table.

(** [/proj] holds [main.dart], which imports [package:app/utils.dart], and
    [lib/app/utils.dart]. *)
Definition dart_package : node :=
  Dir [("proj",
        Dir [("main.dart", File (Ok "import 'package:app/utils.dart';"));
             ("lib", Dir [("app", Dir [("utils.dart", File (Ok ""))])])])].

Definition dart_package_world : World := world dart_package python_table.

(** [/proj] holds [main.dart], which imports the dotted module
    [widgets.button], and [widgets/button.dart]. *)
Definition dart_modules : node :=
  Dir [("proj",
        Dir [("main.dart", File (Ok "import 'widgets.button';"));
             ("widgets", Dir [("button.dart", File (Ok ""))])])].

Definition dart_modules_world : World := world dart_modules python_table.

(** [/proj] holds [main.dart], which imports [package:app/data.json], a
    file that exists and that the collector does not keep. *)
Definition dart_asset : node :=
  Dir [("proj",
        Dir [("main.dart", File (Ok "import 'package:app/data.json';"));
             ("lib", Dir [("app", Dir [("data.json", File (Ok "{}"))])])])].

Definition dart_asset_world : World := world dart_asset python_table.

(** [/proj] holds [bad.py], which is not Python, [latin1.py], which is not
    UTF-8, and [a.py] and [b.py]. *)
Definition broken_files : node :=
  Dir [("proj",
        Dir [("bad.py", File (Ok "def ("));
             ("latin1.py", File (Raise UnicodeDecodeError));
             ("a.py", File (Ok "import b"));
             ("b.py", File (Ok ""))])].

Definition broken_files_world : World := world broken_files python_table.

(** A world in which every call fails. *)
Definition failing_world : World :=
  {| os_walk _ := [];
     open_read _ := Raise OSError;
     ast_parse _ := Raise SyntaxError;
     os_path_exists _ := Raise (OtherException "exists") |}.

End Scenario.

From stdpp Require Import sorting.

(** ** The scan loop, taken apart *)

(** The body of the loop of [_analyze_imports], for one file. *)
Definition scan_one (w : World) (file_path : string) : M unit :=
  try_except
    (content ← call (open_read w file_path);
     (if PyStr.endswith file_path ".py" then
        _analyze_python_imports w file_path content
      else if PyStr.endswith file_path ".dart" then
        _analyze_dart_imports w file_path content
      else mret tt);;
     update (λ self,
       set_used_files (used_files self ∪ {[file_path]}) self))
    logging_error.

(** The loop of [_analyze_imports] over the files in a given order: a
    Python [set] is iterated in an order the program does not choose. *)
Definition scan_loop (w : World) (files : list string) : M unit :=
  for_each files (scan_one w).

(** An edge of a graph. *)
Definition has_edge (g : gmap string (gset string)) (source target : string)
  : Prop :=
  ∃ deps, g !! source = Some deps ∧ target ∈ deps.

(** The analyzer [analyze_project] leaves, from any analyzer. *)
Definition run_effect (w : World) (self : ProjectAnalyzer) : ProjectAnalyzer :=
  let root := project_root self in
  let all := all_files self ∪ universe w root in
  let graph := graph_after w root (elements all) (file_dependencies self) in
  let used :=
    used_files self ∪ filter (readable w) all ∪ edge_targets graph in
  {| project_root := root;
     file_dependencies := graph;
     all_files := all;
     used_files := used;
     unused_files := all ∖ used |}.


(** ** Characters of a string *)

(** Some character of [s] satisfies [p]. *)
Fixpoint has_char (p : ascii -> bool) (s : string) : bool :=
  match s with
  | EmptyString => false
  | String c s' => p c || has_char p s'
  end.

Definition is_newline (c : ascii) : bool := Ascii.eqb c DartRegex.newline.

(** The text of a Dart import statement of [path], in single quotes. *)
Definition dart_import (path : string) : string :=
  "import '" +:+ path +:+ "';".

(** ** [os.path.relpath] and the report of the graph *)

Module PosixRel.

(** [os.path.abspath(path)], where [cwd] is what [os.getcwd()] returns. *)
Definition abspath (cwd path : string) : string :=
  if PyStr.startswith path PosixPath.sep then PosixPath.normpath path
  else PosixPath.normpath (PosixPath.join cwd [path]).

(** [a < b] on lists of strings, as Python compares them: by the first
    place where they differ, and by length when one is a prefix of the
    other. *)
Fixpoint list_lt (a b : list string) : bool :=
  match a, b with
  | [], [] => false
  | [], _ :: _ => true
  | _ :: _, [] => false
  | x :: a', y :: b' =>
      if String.eqb x y then list_lt a' b' else String.ltb x y
  end.

(** [min([a, b])] and [max([a, b])]: the first of the two unless the second
    is strictly smaller, or strictly greater. *)
Definition min2 (a b : list string) : list string :=
  if list_lt b a then b else a.

Definition max2 (a b : list string) : list string :=
  if list_lt a b then b else a.

(** The loop of [commonprefix] over [enumerate(s1)]: [s1[:i]] at the first
    [i] where [s1[i] != s2[i]], the whole of [s1] when there is none;
    [s2[i]] raises [IndexError] when [s2] is too short. *)
Fixpoint common (s1 s2 : list string) : outcome (list string) :=
  match s1 with
  | [] => Ok []
  | c :: s1' =>
      match s2 with
      | [] => Raise (OtherException "IndexError")
      | d :: s2' =>
          if String.eqb c d then
            match common s1' s2' with
            | Ok pre => Ok (c :: pre)
            | Raise e => Raise e
            end
          else Ok []
      end
  end.

(** [os.path.commonprefix([a, b])] on two lists. *)
Definition commonprefix (a b : list string) : outcome (list string) :=
  common (min2 a b) (max2 a b).

(** [[x for x in p.split(sep) if x]] *)
Definition components (p : string) : list string :=
  List.filter (λ x, negb (String.eqb x "")) (PyStr.split PosixPath.sep_char p).

(** [os.path.join] applied to the elements of a list that is not empty. *)
Definition join_all (l : list string) : string :=
  match l with
  | [] => ""
  | a :: p => PosixPath.join a p
  end.

(** [os.path.relpath(path, start)] *)
Definition relpath (cwd path start : string) : outcome string :=
  if String.eqb path "" then Raise ValueError
  else
    let start_list := components (abspath cwd start) in
    let path_list := components (abspath cwd path) in
    match commonprefix start_list path_list with
    | Raise e => Raise e
    | Ok pre =>
        let i := length pre in
        let rel_list :=
          (replicate (length start_list - i) ".." ++ drop i path_list)%list in
        match rel_list with
        | [] => Ok "."
        | _ => Ok (join_all rel_list)
        end
    end.

End PosixRel.

(** [[f(x) for x in l]], for an [f] that may raise. *)
Fixpoint map_outcome {A B} (f : A -> outcome B) (l : list A) : outcome (list B) :=
  match l with
  | [] => Ok []
  | x :: l' =>
      match f x with
      | Raise e => Raise e
      | Ok y =>
          match map_outcome f l' with
          | Raise e => Raise e
          | Ok ys => Ok (y :: ys)
          end
      end
  end.

(** The dict comprehension of [get_dependency_graph] over the items in a
    given order: each key is made relative first, then its values; a later
    item with the same relative key replaces the earlier one. *)
Fixpoint report_items (cwd root : string) (items : list (string * gset string))
  (acc : gmap string (list string)) : outcome (gmap string (list string)) :=
  match items with
  | [] => Ok acc
  | (k, vs) :: rest =>
      match PosixRel.relpath cwd k root with
      | Raise e => Raise e
      | Ok k' =>
          match map_outcome (λ v, PosixRel.relpath cwd v root) (elements vs) with
          | Raise e => Raise e
          | Ok vs' => report_items cwd root rest (<[k' := vs']> acc)
          end
      end
  end.

(** [get_dependency_graph], [cwd] being the working directory. *)
Definition get_dependency_graph (cwd : string) (self : ProjectAnalyzer)
  : outcome (gmap string (list string)) :=
  report_items cwd (project_root self) (map_to_list (file_dependencies self)) ∅.

(** [sorted(l)] for strings: ascending by code points.  The elements of a
    set are distinct, so the sorted list does not depend on the algorithm. *)
Definition py_sorted (l : list string) : list string :=
  merge_sort (λ a b, String.leb a b) l.

(** The relative paths [_log_results] computes, in the order it logs them:
    for every item of the graph the file and its targets, then the unused
    files in sorted order. *)
Definition _log_results_paths (cwd : string) (self : ProjectAnalyzer)
  : outcome (list (string * list string) * list string) :=
  let rel p := PosixRel.relpath cwd p (project_root self) in
  match
    map_outcome
      (λ item : string * gset string,
         match rel (fst item) with
         | Raise e => Raise e
         | Ok rel_file =>
             match map_outcome rel (elements (snd item)) with
             | Raise e => Raise e
             | Ok rel_deps => Ok (rel_file, rel_deps)
             end
         end)
      (map_to_list (file_dependencies self))
  with
  | Raise e => Raise e
  | Ok graph_lines =>
      match map_outcome rel (py_sorted (elements (unused_files self))) with
      | Raise e => Raise e
      | Ok unused_lines => Ok (graph_lines, unused_lines)
      end
  end.

(** A plain path component: not empty, neither [.] nor [..], and without
    separator. *)
Definition plain (comp : string) : bool :=
  negb (String.eqb comp "") && negb (String.eqb comp ".") &&
  negb (String.eqb comp "..") &&
  negb (has_char (Ascii.eqb PosixPath.sep_char) comp).

(** The absolute path made of the components [comps]. *)
Definition absolute (comps : list string) : string :=
  PosixPath.sep +:+ PyStr.join PosixPath.sep comps.

(** [path] lies below the directory of components [dir]: it is the
    absolute path of [dir] followed by further plain components. *)
Definition below (dir : list string) (path : string) : Prop :=
  ∃ comps, comps ≠ [] ∧ forallb plain comps = true ∧
           path = absolute (dir ++ comps).

(** [/proj] holds a Kotlin file and a layout beside [main.dart], which
    imports nothing that exists. *)
Definition mixed_project : FileSystem.node :=
  FileSystem.Dir
    [("proj",
      FileSystem.Dir
        [("Main.kt", FileSystem.File (Ok "import com.example.Util"));
         ("layout.xml", FileSystem.File (Ok "<LinearLayout/>"));
         ("main.dart", FileSystem.File (Ok "import 'dart:io';"))])].

Definition mixed_project_world : World :=
  FileSystem.world mixed_project Scenario.python_table.

(** [self'] is [self] but for edges added to the entry of [file_path]. *)
Definition adds_edges_of (file_path : string) (self self' : ProjectAnalyzer)
  : Prop :=
  project_root self' = project_root self ∧
  all_files self' = all_files self ∧
  used_files self' = used_files self ∧
  unused_files self' = unused_files self ∧
  (∀ k, k ≠ file_path ->
        file_dependencies self' !! k = file_dependencies self !! k) ∧
  (∀ k t, has_edge (file_dependencies self) k t ->
          has_edge (file_dependencies self') k t).


(** ** Every method returns, with the effect given above *)

Lemma for_each_run {A} (f : A -> ProjectAnalyzer -> ProjectAnalyzer)
  (body : A -> M unit) (l : list A) :
  (∀ x self, body x self = (Ok tt, f x self)) ->
  ∀ self, for_each l body self = (Ok tt, foldl (λ s x, f x s) self l).
Proof.
  intros Hbody. induction l as [|x l IH]; intros self; [done|].
  cbn [for_each foldl]. unfold mbind, M_bind. by rewrite Hbody, IH.
Qed.

Lemma dict_add_add_targets src t g : dict_add src t g = add_targets src {[t]} g.
Proof.
  unfold dict_add, add_targets. case_decide as H; [|done]. set_solver.
Qed.

Lemma add_targets_empty src g : add_targets src ∅ g = g.
Proof. unfold add_targets. by case_decide. Qed.

Lemma lookup_add_targets src T g k :
  add_targets src T g !! k =
    if decide (k = src ∧ T ≠ ∅) then Some (default ∅ (g !! k) ∪ T) else g !! k.
Proof.
  unfold add_targets. destruct (decide (T = ∅)) as [->|HT].
  - case_decide; [naive_solver|done].
  - destruct (decide (k = src)) as [->|Hk].
    + rewrite lookup_insert_eq. case_decide; [done|naive_solver].
    + rewrite lookup_insert_ne by done. case_decide; [naive_solver|done].
Qed.

Lemma add_targets_union src T1 T2 g :
  add_targets src T2 (add_targets src T1 g) = add_targets src (T1 ∪ T2) g.
Proof.
  apply map_eq. intros k. rewrite !lookup_add_targets.
  destruct (decide (T1 = ∅)) as [->|H1], (decide (T2 = ∅)) as [->|H2];
    repeat case_decide; try naive_solver; try set_solver.
  - f_equal. set_solver.
  - f_equal. set_solver.
  - f_equal. cbn. set_solver.
Qed.

Lemma foldl_bind {A B C} (f : B -> C -> B) (g : A -> list C) (l : list A) (b : B) :
  foldl (λ b' x, foldl f b' (g x)) b l = foldl f b (concat (g <$> l)).
Proof.
  revert b. induction l as [|x l IH]; intros b; [done|].
  cbn [foldl fmap list_fmap concat]. by rewrite IH, foldl_app.
Qed.

Section Runs.
Context (w : World).

Lemma _resolve_import_run source_file import_path self :
  _resolve_import w source_file import_path self =
    (Ok tt,
     record_edge source_file
       (resolved w (project_root self) source_file import_path) self).
Proof.
  unfold _resolve_import, try_except, resolved, record_edge.
  unfold mbind, M_bind, get_self, call. cbn.
  by destruct (os_path_exists w _) as [[|]|e].
Qed.

Lemma for_each_resolve source_file imports self :
  for_each imports (λ imp, _resolve_import w source_file imp) self =
    (Ok tt, resolve_all w source_file imports self).
Proof.
  apply (for_each_run
           (λ imp s, record_edge source_file
                       (resolved w (project_root s) source_file imp) s)).
  intros. apply _resolve_import_run.
Qed.

Lemma _analyze_python_imports_run file_path content self :
  _analyze_python_imports w file_path content self =
    (Ok tt, resolve_all w file_path (python_imports w content) self).
Proof.
  unfold _analyze_python_imports, try_except, python_imports.
  unfold mbind, M_bind, call.
  destruct (ast_parse w content) as [tree|e]; [|done].
  rewrite (for_each_run (λ node s, resolve_all w file_path (node_imports node) s)).
  - unfold resolve_all. by rewrite foldl_bind.
  - intros [names|[m|]|] s; cbn [node_imports].
    + apply for_each_resolve.
    + destruct (String.eqb m ""); [done|]. apply _resolve_import_run.
    + done.
    + done.
Qed.

Lemma _analyze_dart_imports_run file_path content self :
  _analyze_dart_imports w file_path content self =
    (Ok tt, resolve_all w file_path (DartRegex.finditer_groups content) self).
Proof. apply for_each_resolve. Qed.

Lemma _analyze_imports_run self :
  _analyze_imports w self =
    (Ok tt, foldl (λ s f, scan_file w f s) self (elements (all_files self))).
Proof.
  unfold _analyze_imports. unfold mbind at 1, M_bind at 1, get_self.
  apply (for_each_run (scan_file w)). intros f s.
  unfold try_except, scan_file, raw_imports, mbind, M_bind, call, update.
  destruct (open_read w f) as [content|e]; [|done].
  destruct (PyStr.endswith f ".py").
  - by rewrite _analyze_python_imports_run.
  - destruct (PyStr.endswith f ".dart"); [|done].
    by rewrite _analyze_dart_imports_run.
Qed.

Lemma _collect_all_files_run self :
  _collect_all_files w self =
    (Ok tt, add_files (collected w (project_root self)) self).
Proof.
  unfold _collect_all_files. unfold mbind at 1, M_bind at 1, get_self.
  unfold mbind, M_bind, logging_info.
  rewrite (for_each_run (λ '(root, _, files) s,
             add_files ((λ file, PosixPath.join root [file]) <$>
               List.filter (λ file, PyStr.endswith_any file collected_suffixes)
                 files) s)).
  - unfold add_files, collected. cbn. f_equal.
    generalize (os_walk w (project_root self)). intros l. revert self.
    induction l as [|[[root dirs] files] l IH]; intros self; [done|].
    cbn [foldl fmap list_fmap concat]. by rewrite IH, foldl_app.
  - intros [[root dirs] files] s. unfold add_files.
    rewrite (for_each_run (λ file s,
               if PyStr.endswith_any file collected_suffixes
               then set_all_files
                      (all_files s ∪ {[PosixPath.join root [file]]}) s
               else s)).
    + f_equal. clear. revert s.
      induction files as [|file files IH]; intros s; [done|].
      cbn [foldl List.filter].
      destruct (PyStr.endswith_any file collected_suffixes); cbn; apply IH.
    + intros file s'.
      by destruct (PyStr.endswith_any file collected_suffixes).
Qed.

Lemma _find_unused_files_run self :
  _find_unused_files self =
    (Ok tt,
     set_unused_files (all_files self ∖ used_and_targets self)
       (set_used_files (used_and_targets self) self)).
Proof.
  unfold _find_unused_files. unfold mbind at 1, M_bind at 1, get_self.
  unfold mbind, M_bind.
  rewrite (for_each_run (λ deps s, set_used_files (used_files s ∪ deps) s))
    by done.
  unfold update, used_and_targets.
  generalize (map_to_list (file_dependencies self)).*2. intros l.
  assert (∀ s, foldl (λ s x, set_used_files (used_files s ∪ x) s) s l =
               set_used_files (foldl (λ u deps, u ∪ deps) (used_files s) l) s)
    as ->; [|done].
  induction l as [|d l IH]; intros s.
  - by destruct s.
  - cbn [foldl]. by rewrite IH.
Qed.

End Runs.

(** ** The analyzer after a run, field by field *)

(** Field updates reduced to the record they build. *)
Ltac simpl_self :=
  unfold set_file_dependencies, set_all_files, set_used_files,
    set_unused_files;
  cbn [project_root file_dependencies all_files used_files unused_files].

Section Result.
Context (w : World).

Lemma run_scan_eq root : run_scan w root = (Ok tt, scan_state w root).
Proof.
  unfold run_scan, scan_state, mbind, M_bind.
  by rewrite _collect_all_files_run, _analyze_imports_run.
Qed.

Lemma run_analysis_eq root :
  run_analysis w root = (Ok tt, classify (scan_state w root)).
Proof.
  unfold run_analysis, analyze_project, scan_state, classify, mbind, M_bind.
  by rewrite _collect_all_files_run, _analyze_imports_run,
    _find_unused_files_run.
Qed.

Lemma resolve_all_eq source_file imports self :
  resolve_all w source_file imports self =
    set_file_dependencies
      (add_targets source_file
         (targets w (project_root self) source_file imports)
         (file_dependencies self)) self.
Proof.
  unfold resolve_all, targets. revert self.
  induction imports as [|imp imports IH]; intros self.
  - cbn. rewrite add_targets_empty. by destruct self.
  - cbn [foldl omap]. rewrite IH. unfold record_edge.
    destruct (resolved w (project_root self) source_file imp) as [t|] eqn:E;
      cbn; rewrite E; [|done].
    by rewrite dict_add_add_targets, add_targets_union.
Qed.

Lemma scan_file_eq file_path self :
  scan_file w file_path self =
    set_used_files
      (used_files self ∪ (if decide (readable w file_path) then {[file_path]} else ∅))
      (set_file_dependencies
         (add_targets file_path (file_targets w (project_root self) file_path)
            (file_dependencies self)) self).
Proof.
  unfold scan_file, file_targets, file_imports.
  destruct (decide (readable w file_path)) as [[content Hc]|Hn].
  - rewrite Hc, resolve_all_eq. reflexivity.
  - destruct (open_read w file_path) as [content|e] eqn:E.
    { destruct Hn. by exists content. }
    cbn. rewrite add_targets_empty, union_empty_r_L. by destruct self.
Qed.

Lemma scan_files_eq (l : list string) self :
  foldl (λ s f, scan_file w f s) self l =
    set_used_files
      (used_files self ∪ filter (readable w) (list_to_set l))
      (set_file_dependencies
         (graph_after w (project_root self) l (file_dependencies self)) self).
Proof.
  unfold graph_after. revert self.
  induction l as [|f l IH]; intros self.
  - destruct self; cbn; simpl_self. f_equal. set_solver.
  - cbn [foldl]. rewrite IH, scan_file_eq. destruct self; simpl_self. f_equal.
    case_decide; set_solver.
Qed.

Lemma lookup_graph_after root (l : list string) g k :
  graph_after w root l g !! k =
    if decide (k ∈ l ∧ file_targets w root k ≠ ∅)
    then Some (default ∅ (g !! k) ∪ file_targets w root k)
    else g !! k.
Proof.
  unfold graph_after. revert g.
  induction l as [|f l IH]; intros g.
  - cbn. case_decide as H; [|done]. destruct H as [H _]. by inversion H.
  - cbn [foldl]. rewrite IH, lookup_add_targets.
    repeat case_decide; destruct_and?; simplify_eq; try done;
      try (exfalso; set_solver); cbn; f_equal; set_solver.
Qed.

Lemma add_files_eq (l : list string) self :
  add_files l self = set_all_files (all_files self ∪ list_to_set l) self.
Proof.
  unfold add_files. revert self.
  induction l as [|p l IH]; intros self.
  - destruct self; cbn; simpl_self. f_equal. set_solver.
  - cbn [foldl]. rewrite IH. destruct self; simpl_self. f_equal. set_solver.
Qed.

Lemma scan_state_eq root :
  scan_state w root =
    {| project_root := root;
       file_dependencies := graph_after w root (elements (universe w root)) ∅;
       all_files := universe w root;
       used_files := filter (readable w) (universe w root);
       unused_files := ∅ |}.
Proof.
  unfold scan_state. rewrite add_files_eq, scan_files_eq.
  unfold __init__; simpl_self. rewrite !union_empty_l_L.
  fold (universe w root). by rewrite list_to_set_elements_L.
Qed.

Lemma elem_of_used_and_targets self x :
  x ∈ used_and_targets self ↔
    x ∈ used_files self ∨
    ∃ k deps, file_dependencies self !! k = Some deps ∧ x ∈ deps.
Proof.
  unfold used_and_targets.
  assert (∀ (l : list (gset string)) u,
            x ∈ foldl (λ u deps, u ∪ deps) u l ↔ x ∈ u ∨ ∃ d, d ∈ l ∧ x ∈ d)
    as Hfold.
  { induction l as [|d l IH]; intros u; cbn [foldl].
    - split; [by left|]. intros [?|(d & Hd & _)]; [done|]. by inversion Hd.
    - rewrite IH. set_solver. }
  rewrite Hfold. apply or_iff_compat_l. split.
  - intros (d & Hd & Hx). apply list_elem_of_fmap in Hd as ([k d'] & -> & Hkd).
    apply elem_of_map_to_list in Hkd. by exists k, d'.
  - intros (k & d & Hk & Hx). exists d. split; [|done].
    apply list_elem_of_fmap. exists (k, d). split; [done|].
    by apply elem_of_map_to_list.
Qed.

End Result.

Lemma elem_of_edge_targets g x :
  x ∈ edge_targets g ↔ ∃ k deps, g !! k = Some deps ∧ x ∈ deps.
Proof.
  unfold edge_targets. rewrite elem_of_union_list. split.
  - intros (d & Hd & Hx). apply list_elem_of_fmap in Hd as ([k d'] & -> & Hkd).
    apply elem_of_map_to_list in Hkd. by exists k, d'.
  - intros (k & d & Hk & Hx). exists d. split; [|done].
    apply list_elem_of_fmap. exists (k, d). split; [done|].
    by apply elem_of_map_to_list.
Qed.

Section Outputs.
Context (w : World).

Lemma run_analysis_returns root : fst (run_analysis w root) = Ok tt.
Proof. by rewrite run_analysis_eq. Qed.

Lemma final_state_eq root : final_state w root = classify (scan_state w root).
Proof. unfold final_state. by rewrite run_analysis_eq. Qed.

Lemma FileUniverse_eq root : FileUniverse w root = universe w root.
Proof.
  unfold FileUniverse. rewrite final_state_eq, scan_state_eq. done.
Qed.

Lemma ScannedSet_eq root :
  ScannedSet w root = filter (readable w) (universe w root).
Proof. unfold ScannedSet. by rewrite run_scan_eq, scan_state_eq. Qed.

Lemma DependencyGraph_eq root :
  DependencyGraph w root =
    graph_after w root (elements (universe w root)) ∅.
Proof.
  unfold DependencyGraph. rewrite final_state_eq, scan_state_eq. done.
Qed.

Lemma lookup_DependencyGraph root k :
  DependencyGraph w root !! k =
    if decide (k ∈ universe w root ∧ file_targets w root k ≠ ∅)
    then Some (file_targets w root k)
    else None.
Proof.
  rewrite DependencyGraph_eq, lookup_graph_after, lookup_empty.
  repeat case_decide; try done.
  - cbn. f_equal. set_solver.
  - exfalso. set_solver.
  - exfalso. set_solver.
Qed.

Lemma UsedSet_eq root :
  UsedSet w root = ScannedSet w root ∪ edge_targets (DependencyGraph w root).
Proof.
  apply set_eq. intros x.
  unfold UsedSet, DependencyGraph. rewrite ScannedSet_eq, final_state_eq.
  unfold classify; simpl_self.
  rewrite elem_of_used_and_targets, elem_of_union, elem_of_edge_targets.
  by rewrite scan_state_eq.
Qed.

Lemma UnusedSet_eq root :
  UnusedSet w root = FileUniverse w root ∖ UsedSet w root.
Proof.
  unfold UnusedSet, FileUniverse, UsedSet. by rewrite final_state_eq.
Qed.

Lemma elem_of_file_targets root file_path t :
  t ∈ file_targets w root file_path ↔
    ∃ imp, imp ∈ file_imports w file_path ∧
           resolved w root file_path imp = Some t.
Proof.
  unfold file_targets, targets.
  rewrite elem_of_list_to_set, list_elem_of_omap. done.
Qed.

Lemma resolved_Some root source_file import_path t :
  resolved w root source_file import_path = Some t ↔
    t = target_path_of root source_file import_path ∧
    os_path_exists w t = Ok true.
Proof.
  unfold resolved.
  destruct (os_path_exists w (target_path_of root source_file import_path))
    as [[|]|e] eqn:E; split; try done.
  - intros [= <-]. done.
  - by intros [-> _].
  - intros [-> H]. congruence.
  - intros [-> H]. congruence.
Qed.

End Outputs.

(** ** Facts on the string operations *)

Lemma append_cons c s t : String c s +:+ t = String c (s +:+ t).
Proof. reflexivity. Qed.

Lemma prefix_one_char c x s :
  String.prefix (String c EmptyString) (String x s) = Ascii.eqb c x.
Proof.
  cbn. destruct (ascii_dec c x) as [->|Hne].
  - rewrite Ascii.eqb_refl. by destruct s.
  - by apply Ascii.eqb_neq in Hne as ->.
Qed.

Lemma replace_one_char c d s :
  PyStr.replace s (String c EmptyString) (String d EmptyString) =
    Rules.substitute_char c d s.
Proof.
  unfold PyStr.replace. induction s as [|x s IH]; [done|].
  cbn [PyStr.replace_from Rules.substitute_char].
  rewrite prefix_one_char, (Ascii.eqb_sym c x).
  destruct (Ascii.eqb x c); cbn; by rewrite IH.
Qed.

Lemma substitute_char_same c s : Rules.substitute_char c c s = s.
Proof.
  induction s as [|x s IH]; [done|]. cbn. rewrite IH.
  destruct (Ascii.eqb x c) eqn:E; [|done]. by apply Ascii.eqb_eq in E as ->.
Qed.

Lemma startswith_skip s p :
  PyStr.startswith s p = true -> s = p +:+ DartRegex.skip (String.length p) s.
Proof.
  unfold PyStr.startswith. revert s.
  induction p as [|c p IH]; intros s H; [done|].
  destruct s as [|x s]; [done|]. cbn in H.
  destruct (ascii_dec c x) as [->|Hne]; [|done].
  cbn [String.length DartRegex.skip]. rewrite append_cons. f_equal. by apply IH.
Qed.

Lemma replace_from_skip old new x r :
  PyStr.replace_from (String.length x) old new (x +:+ r) =
    PyStr.replace_from 0 old new r.
Proof.
  induction x as [|c x IH]; [done|].
  rewrite append_cons. cbn [String.length PyStr.replace_from]. apply IH.
Qed.

Lemma replace_absent old new s :
  Rules.occurs old s = false -> PyStr.replace s old new = s.
Proof.
  unfold PyStr.replace. induction s as [|c s IH]; [done|].
  cbn [Rules.occurs PyStr.replace_from]. intros H.
  apply orb_false_iff in H as [-> H]. f_equal. by apply IH.
Qed.

(** Where [old] occurs only as the prefix of [s], [replace] takes it off. *)
Lemma replace_prefix_only old new s :
  old ≠ EmptyString ->
  PyStr.startswith s old = true ->
  Rules.occurs old (DartRegex.skip (String.length old) s) = false ->
  PyStr.replace s old new = new +:+ DartRegex.skip (String.length old) s.
Proof.
  intros Hold Hs Hocc. pose proof (startswith_skip _ _ Hs) as Heq.
  unfold PyStr.replace.
  destruct old as [|c old]; [done|]. destruct s as [|x s]; [done|].
  cbn [PyStr.replace_from]. unfold PyStr.startswith in Hs. rewrite Hs.
  f_equal. cbn [String.length DartRegex.skip] in *.
  injection Heq as -> Heq. rewrite Heq at 1.
  replace (S (String.length old) - 1) with (String.length old) by lia.
  rewrite replace_from_skip. by apply replace_absent.
Qed.

Lemma endswith_dart_not_py s :
  PyStr.endswith s ".dart" = true -> PyStr.endswith s ".py" = false.
Proof.
  induction s as [|c s IH]; [done|]. cbn [PyStr.endswith].
  intros H. apply orb_true_iff in H as [H|H].
  - apply String.eqb_eq in H. injection H as -> ->. reflexivity.
  - rewrite (IH H), orb_false_r. apply String.eqb_neq. intros E.
    injection E as -> ->. discriminate H.
Qed.

Lemma target_path_of_py root source_file import_path :
  PyStr.endswith import_path ".py" = true ->
  target_path_of root source_file import_path =
    Rules.sibling_candidate source_file import_path.
Proof. unfold target_path_of. by intros ->. Qed.

Lemma target_path_of_dotted root source_file import_path :
  PyStr.endswith import_path ".py" = false ->
  PyStr.startswith import_path "package:" = false ->
  target_path_of root source_file import_path =
    Rules.dotted_candidate source_file import_path.
Proof.
  unfold target_path_of, Rules.dotted_candidate. intros -> ->.
  unfold PosixPath.sep. by rewrite replace_one_char.
Qed.

Lemma target_path_of_package root source_file import_path :
  PyStr.endswith import_path ".py" = false ->
  PyStr.startswith import_path "package:" = true ->
  Rules.occurs "package:"
    (DartRegex.skip (String.length "package:") import_path) = false ->
  target_path_of root source_file import_path =
    Rules.package_candidate root import_path.
Proof.
  unfold target_path_of, Rules.package_candidate. intros -> Hp Hocc.
  rewrite Hp. rewrite (replace_prefix_only "package:" "") by done.
  unfold PosixPath.sep. by rewrite replace_one_char.
Qed.

(** ** The resolver *)

Lemma CollectedSet_eq w root : CollectedSet w root = universe w root.
Proof.
  unfold CollectedSet. rewrite _collect_all_files_run, add_files_eq.
  unfold __init__, universe; simpl_self. set_solver.
Qed.

(** C7: for every source file and raw import, [_resolve_import] returns to
    its caller (it never raises); the analyzer it leaves is either the one it
    was given or that one with the resolved edge recorded; and when the
    existence check raises, the analyzer is left exactly as it was. *)
Theorem resolve_import_never_raises (w : World)
  (source_file import_path : string) (self : ProjectAnalyzer) :
  ∃ self',
    _resolve_import w source_file import_path self = (Ok tt, self') ∧
    (self' = self ∨
     self' = with_edge source_file
               (target_path_of (project_root self) source_file import_path)
               self) ∧
    (∀ e,
       os_path_exists w
         (target_path_of (project_root self) source_file import_path)
         = Raise e ->
       self' = self).
Proof.
  rewrite _resolve_import_run. eexists. split; [reflexivity|].
  unfold resolved, record_edge, with_edge.
  destruct (os_path_exists w _) as [[|]|e']; split; auto; intros e He;
    discriminate He.
Qed.

(** C3: when [os.path.exists] does not return [True] for the candidate path,
    [_resolve_import] leaves the analyzer, and so the graph, as it was; and
    every target of an edge of the final graph is a path for which
    [os.path.exists] returned [True]. *)
Theorem only_existing_targets (w : World) :
  (∀ source_file import_path self,
     os_path_exists w
       (target_path_of (project_root self) source_file import_path)
       ≠ Ok true ->
     _resolve_import w source_file import_path self = (Ok tt, self)) ∧
  (∀ root source_file deps target,
     DependencyGraph w root !! source_file = Some deps ->
     target ∈ deps ->
     os_path_exists w target = Ok true).
Proof.
  split.
  - intros source_file import_path self Hno.
    rewrite _resolve_import_run. unfold resolved.
    by destruct (os_path_exists w _) as [[|]|e].
  - intros root source_file deps target Hdeps Hin.
    rewrite lookup_DependencyGraph in Hdeps.
    case_decide; [|done]. injection Hdeps as <-.
    apply elem_of_file_targets in Hin as (imp & _ & Hres).
    by apply resolved_Some in Hres as [_ Hex].
Qed.

(** C4: for a raw import that neither ends in [.py] nor starts with
    [package:], the candidate path is the one of the dotted-module rule:
    every dot replaced by the separator, [.dart] appended, joined to the
    directory of the importing file and normalized; the edge to it is
    recorded when it exists. *)
Theorem dotted_module_resolution (w : World)
  (source_file import_path : string) (self : ProjectAnalyzer) :
  PyStr.endswith import_path ".py" = false ->
  PyStr.startswith import_path "package:" = false ->
  target_path_of (project_root self) source_file import_path =
    Rules.dotted_candidate source_file import_path ∧
  (os_path_exists w (Rules.dotted_candidate source_file import_path) = Ok true ->
   _resolve_import w source_file import_path self =
     (Ok tt,
      with_edge source_file (Rules.dotted_candidate source_file import_path)
        self)).
Proof.
  intros Hpy Hpkg.
  pose proof (target_path_of_dotted (project_root self) source_file
                import_path Hpy Hpkg) as Heq.
  split; [done|]. intros Hex.
  rewrite _resolve_import_run. unfold resolved. by rewrite Heq, Hex.
Qed.

(** C6: for a raw import ending in [.py] whose path, joined to the
    directory of the importing file and normalized, exists,
    [_resolve_import] records the edge from the importing file to that
    path. *)
Theorem sibling_import_recorded (w : World)
  (source_file import_path : string) (self : ProjectAnalyzer) :
  PyStr.endswith import_path ".py" = true ->
  os_path_exists w (Rules.sibling_candidate source_file import_path) = Ok true ->
  _resolve_import w source_file import_path self =
    (Ok tt,
     with_edge source_file (Rules.sibling_candidate source_file import_path)
       self) ∧
  ∃ deps,
    file_dependencies (snd (_resolve_import w source_file import_path self))
      !! source_file = Some deps ∧
    Rules.sibling_candidate source_file import_path ∈ deps.
Proof.
  intros Hpy Hex.
  assert (_resolve_import w source_file import_path self =
            (Ok tt,
             with_edge source_file
               (Rules.sibling_candidate source_file import_path) self)) as Hrun.
  { rewrite _resolve_import_run. unfold resolved.
    by rewrite (target_path_of_py _ _ _ Hpy), Hex. }
  split; [done|]. rewrite Hrun. unfold with_edge, dict_add; simpl_self.
  eexists. split; [apply lookup_insert_eq|]. set_solver.
Qed.

(** ** The graph and the classification *)

(** C10: every key of the final dependency graph is a collected file, and
    the set of targets it is mapped to is not empty. *)
Theorem graph_keys_collected_nonempty (w : World) (root source_file : string)
  (deps : gset string) :
  DependencyGraph w root !! source_file = Some deps ->
  source_file ∈ FileUniverse w root ∧ deps ≠ ∅.
Proof.
  rewrite lookup_DependencyGraph, FileUniverse_eq.
  case_decide as H; [|done]. intros [= <-]. done.
Qed.

(** C8: a collected [.py] file that can be read and whose content does not
    parse is in the used set, as a scanned source, has no entry in the
    dependency graph, and is not classified as unused. *)
Theorem unparsable_file_is_used (w : World) (root file_path content : string)
  (e : exn) :
  file_path ∈ CollectedSet w root ->
  PyStr.endswith file_path ".py" = true ->
  open_read w file_path = Ok content ->
  ast_parse w content = Raise e ->
  file_path ∈ ScannedSet w root ∧
  file_path ∈ UsedSet w root ∧
  DependencyGraph w root !! file_path = None ∧
  file_path ∉ UnusedSet w root.
Proof.
  rewrite CollectedSet_eq. intros Hin Hpy Hread Hparse.
  assert (file_path ∈ ScannedSet w root) as Hscanned.
  { rewrite ScannedSet_eq. apply elem_of_filter. split; [|done].
    by exists content. }
  assert (file_path ∈ UsedSet w root) as Hused.
  { rewrite UsedSet_eq. set_solver. }
  repeat split; try done.
  - rewrite lookup_DependencyGraph. case_decide as H; [|done].
    destruct H as [_ H]. exfalso. apply H.
    unfold file_targets, file_imports, raw_imports, python_imports.
    by rewrite Hread, Hpy, Hparse.
  - rewrite UnusedSet_eq. set_solver.
Qed.

(** C9: a collected file that cannot be opened or decoded is not added to
    the used set as a scanned source and stays in the file universe; it is
    classified as unused exactly when it is the target of no edge. *)
Theorem unreadable_file_unused_unless_target (w : World)
  (root file_path : string) (e : exn) :
  file_path ∈ CollectedSet w root ->
  open_read w file_path = Raise e ->
  (file_path ∉ ScannedSet w root) ∧
  file_path ∈ FileUniverse w root ∧
  (file_path ∈ UnusedSet w root ↔
   file_path ∉ edge_targets (DependencyGraph w root)).
Proof.
  rewrite CollectedSet_eq. intros Hin Hread.
  assert (file_path ∉ ScannedSet w root) as Hscanned.
  { rewrite ScannedSet_eq, elem_of_filter. intros [[content Hc] _].
    congruence. }
  rewrite UnusedSet_eq, UsedSet_eq, FileUniverse_eq.
  repeat split; try done; set_solver.
Qed.

(** C2, amended: after every run the unused set is the file universe minus
    the used set, so the two are disjoint and together cover the universe;
    their union is the universe together with the targets of the edges, and
    it is the universe itself exactly when every target is a collected
    file. *)
Theorem used_unused_cover (w : World) (root : string) :
  UnusedSet w root = FileUniverse w root ∖ UsedSet w root ∧
  UsedSet w root ∩ UnusedSet w root = ∅ ∧
  FileUniverse w root ⊆ UsedSet w root ∪ UnusedSet w root ∧
  UsedSet w root ∪ UnusedSet w root =
    FileUniverse w root ∪ edge_targets (DependencyGraph w root) ∧
  (UsedSet w root ∪ UnusedSet w root = FileUniverse w root ↔
   edge_targets (DependencyGraph w root) ⊆ FileUniverse w root).
Proof.
  pose proof (UnusedSet_eq w root) as Hun.
  pose proof (UsedSet_eq w root) as Hus.
  assert (ScannedSet w root ⊆ FileUniverse w root) as Hsc.
  { rewrite ScannedSet_eq, FileUniverse_eq. set_solver. }
  assert (∀ x, x ∈ FileUniverse w root ->
               x ∈ UsedSet w root ∨ x ∈ UnusedSet w root) as Hcov.
  { intros x Hx. destruct (decide (x ∈ UsedSet w root)); [by left|].
    right. rewrite Hun. set_solver. }
  split; [done|]. split; [set_solver|]. split; [set_solver|].
  assert (UsedSet w root ∪ UnusedSet w root =
            FileUniverse w root ∪ edge_targets (DependencyGraph w root)) as Hu.
  { apply set_eq. intros x. rewrite !elem_of_union. split.
    - intros [Hx|Hx]; [|set_solver]. rewrite Hus in Hx. set_solver.
    - intros [Hx|Hx]; [by apply Hcov|]. left. rewrite Hus. set_solver. }
  split; [done|]. rewrite Hu. set_solver.
Qed.

(** ** The scenarios of the specification *)

Lemma endswith_app p s suf :
  PyStr.endswith s suf = true -> PyStr.endswith (p +:+ s) suf = true.
Proof.
  intros H. induction p as [|c p IH]; [done|].
  rewrite append_cons. cbn [PyStr.endswith]. by rewrite IH, orb_true_r.
Qed.

Lemma endswith_join2 path name suf :
  PyStr.startswith name PosixPath.sep = false ->
  PyStr.endswith name suf = true ->
  PyStr.endswith (PosixPath.join2 path name) suf = true.
Proof.
  intros Hrel Hsuf. unfold PosixPath.join2. rewrite Hrel.
  destruct (String.eqb path "" || PyStr.endswith path PosixPath.sep).
  - by apply endswith_app.
  - apply endswith_app. by apply (endswith_app PosixPath.sep).
Qed.

(** A file none of whose raw imports resolves has no entry in the graph. *)
Lemma no_targets_no_entry w root file_path :
  file_targets w root file_path = ∅ ->
  DependencyGraph w root !! file_path = None.
Proof.
  intros H. rewrite lookup_DependencyGraph. case_decide; [|done]. naive_solver.
Qed.

Lemma python_file_targets w root file_path content :
  PyStr.endswith file_path ".py" = true ->
  open_read w file_path = Ok content ->
  file_targets w root file_path =
    targets w root file_path (python_imports w content).
Proof.
  intros Hpy Hread. unfold file_targets, file_imports, raw_imports.
  by rewrite Hread, Hpy.
Qed.

(** C1, amended: in a project whose root holds exactly [a.py], [b.py] and
    [c.py], all readable, where [a.py] is the single statement importing [b]
    and the other two are empty, the used set is made of the three files and
    the unused set is empty. *)
Theorem three_files_all_used (w : World)
  (root content_a content_b content_c : string) :
  os_walk w root = [(root, [], ["a.py"; "b.py"; "c.py"])] ->
  open_read w (in_root root "a.py") = Ok content_a ->
  python_imports w content_a = ["b"] ->
  open_read w (in_root root "b.py") = Ok content_b ->
  python_imports w content_b = [] ->
  open_read w (in_root root "c.py") = Ok content_c ->
  python_imports w content_c = [] ->
  os_path_exists w (target_path_of root (in_root root "a.py") "b") = Ok false ->
  FileUniverse w root =
    {[in_root root "a.py"; in_root root "b.py"; in_root root "c.py"]} ∧
  UsedSet w root =
    {[in_root root "a.py"; in_root root "b.py"; in_root root "c.py"]} ∧
  UnusedSet w root = ∅.
Proof.
  intros Hwalk Ha Hia Hb Hib Hc Hic Hex.
  assert (universe w root =
            {[in_root root "a.py"; in_root root "b.py"; in_root root "c.py"]})
    as Huniv.
  { unfold universe, collected. rewrite Hwalk. cbn. fold (in_root root "a.py").
    fold (in_root root "b.py"). fold (in_root root "c.py"). set_solver. }
  assert (∀ name, PyStr.endswith name ".py" = true ->
                  PyStr.startswith name PosixPath.sep = false ->
                  PyStr.endswith (in_root root name) ".py" = true) as Hpy.
  { intros name H1 H2. unfold in_root, PosixPath.join. cbn [fold_left].
    by apply endswith_join2. }
  assert (∀ f, f ∈ universe w root -> file_targets w root f = ∅) as Hnone.
  { intros f. rewrite Huniv, !elem_of_union, !elem_of_singleton.
    intros [[->| ->]| ->].
    - rewrite (python_file_targets _ _ _ content_a) by (by auto).
      rewrite Hia. unfold targets.
      assert (resolved w root (in_root root "a.py") "b" = None) as Hres.
      { unfold resolved. by rewrite Hex. }
      cbn [omap list_omap]. by rewrite Hres.
    - rewrite (python_file_targets _ _ _ content_b) by (by auto).
      by rewrite Hib.
    - rewrite (python_file_targets _ _ _ content_c) by (by auto).
      by rewrite Hic. }
  assert (edge_targets (DependencyGraph w root) = ∅) as Hedges.
  { apply set_eq. intros x. rewrite elem_of_edge_targets. split; [|set_solver].
    intros (k & deps & Hk & _). rewrite lookup_DependencyGraph in Hk.
    case_decide as H; [|done]. destruct H as [Hin Hne]. by apply Hnone in Hin. }
  assert (ScannedSet w root = universe w root) as Hscanned.
  { rewrite ScannedSet_eq. apply set_eq. intros f. rewrite elem_of_filter.
    split; [by intros [_ ?]|]. intros Hf. split; [|done]. revert Hf.
    rewrite Huniv, !elem_of_union, !elem_of_singleton.
    intros [[->| ->]| ->]; by eexists. }
  assert (UsedSet w root = universe w root) as Hused.
  { rewrite UsedSet_eq, Hedges, Hscanned. set_solver. }
  rewrite UnusedSet_eq, Hused, FileUniverse_eq, Huniv. set_solver.
Qed.

(** C5, amended: for a raw import that starts with [package:], does not end
    in [.py] and holds the marker [package:] only as that prefix, the
    candidate path is the one of the package rule: the marker taken off,
    slashes as directory separators, joined to the [lib] directory of the
    project and normalized.  In particular, when a collected [.dart] file
    holds [import 'package:app/utils.dart';] and [lib/app/utils.dart] exists
    under the project root, the edge from that file to it is in the final
    graph. *)
Theorem package_import_resolution :
  (∀ root source_file import_path,
     PyStr.startswith import_path "package:" = true ->
     PyStr.endswith import_path ".py" = false ->
     Rules.occurs "package:"
       (DartRegex.skip (String.length "package:") import_path) = false ->
     target_path_of root source_file import_path =
       Rules.package_candidate root import_path) ∧
  (∀ (w : World) root main_dart,
     main_dart ∈ FileUniverse w root ->
     PyStr.endswith main_dart ".dart" = true ->
     open_read w main_dart = Ok "import 'package:app/utils.dart';" ->
     os_path_exists w
       (PosixPath.normpath (PosixPath.join root ["lib"; "app/utils.dart"]))
       = Ok true ->
     ∃ deps,
       DependencyGraph w root !! main_dart = Some deps ∧
       PosixPath.normpath (PosixPath.join root ["lib"; "app/utils.dart"])
         ∈ deps).
Proof.
  split.
  - intros root source_file import_path Hpkg Hpy Hocc.
    by apply target_path_of_package.
  - intros w root main_dart Hin Hdart Hread Hex.
    rewrite FileUniverse_eq in Hin.
    assert (PosixPath.normpath (PosixPath.join root ["lib"; "app/utils.dart"])
              ∈ file_targets w root main_dart) as Ht.
    { apply elem_of_file_targets. exists "package:app/utils.dart". split.
      - unfold file_imports, raw_imports.
        rewrite Hread, (endswith_dart_not_py _ Hdart), Hdart.
        assert (DartRegex.finditer_groups "import 'package:app/utils.dart';"
                = ["package:app/utils.dart"]) as -> by (vm_compute; reflexivity).
        apply list_elem_of_here.
      - by apply resolved_Some. }
    rewrite lookup_DependencyGraph. case_decide as H.
    + by eexists.
    + destruct H. split; [done|]. set_solver.
Qed.

(** ** The analysis on the projects of [Scenario] *)

Section Runs_on_scenarios.
Import Scenario.

(** The three-file project: no edge, the three files used, none unused. *)
Lemma three_files_run :
fst (run_analysis three_files_world "/proj") = Ok tt ∧
DependencyGraph three_files_world "/proj" = ∅ ∧
FileUniverse three_files_world "/proj" =
  {["/proj/a.py"; "/proj/b.py"; "/proj/c.py"]} ∧
UsedSet three_files_world "/proj" =
  {["/proj/a.py"; "/proj/b.py"; "/proj/c.py"]} ∧
UnusedSet three_files_world "/proj" = ∅.
Proof. repeat split; vm_compute; reflexivity. Qed.

(** The raw import [b] of [/proj/a.py] is looked for as [/proj/b.dart]. *)
Lemma three_files_candidate :
target_path_of "/proj" "/proj/a.py" "b" = "/proj/b.dart".
Proof. vm_compute. reflexivity. Qed.

(** C1, as stated, fails on the three-file project: the graph has no edge
  from [a.py] to [b.py], [c.py] is in the used set, and the unused set is
  empty. *)
Lemma three_files_counterexample :
¬ (DependencyGraph three_files_world "/proj" =
     {["/proj/a.py" := {["/proj/b.py"]}]} ∧
   UsedSet three_files_world "/proj" = {["/proj/a.py"; "/proj/b.py"]} ∧
   UnusedSet three_files_world "/proj" = {["/proj/c.py"]}).
Proof.
destruct three_files_run as (_ & _ & _ & _ & Hunused).
intros (_ & _ & H). rewrite Hunused in H.
assert ("/proj/c.py" ∈ (∅ : gset string)) as Hin by (rewrite H; set_solver).
set_solver.
Qed.

(** The three-file project meets every premise of [three_files_all_used]. *)
Lemma three_files_all_used_witness :
FileUniverse three_files_world "/proj" =
  {[in_root "/proj" "a.py"; in_root "/proj" "b.py"; in_root "/proj" "c.py"]} ∧
UsedSet three_files_world "/proj" =
  {[in_root "/proj" "a.py"; in_root "/proj" "b.py"; in_root "/proj" "c.py"]} ∧
UnusedSet three_files_world "/proj" = ∅.
Proof.
apply (three_files_all_used three_files_world "/proj" "import b" "" "");
  vm_compute; reflexivity.
Defined.

(** The project importing an asset: the asset is used and not collected. *)
Lemma dart_asset_run :
DependencyGraph dart_asset_world "/proj" =
  {["/proj/main.dart" := {["/proj/lib/app/data.json"]}]} ∧
FileUniverse dart_asset_world "/proj" = {["/proj/main.dart"]} ∧
UsedSet dart_asset_world "/proj" =
  {["/proj/main.dart"; "/proj/lib/app/data.json"]} ∧
UnusedSet dart_asset_world "/proj" = ∅.
Proof. repeat split; vm_compute; reflexivity. Qed.

(** C2, as stated, fails on the project importing an asset: the union of
  the used and the unused set holds [lib/app/data.json], which is not in
  the file universe. *)
Lemma dart_asset_counterexample :
¬ (UsedSet dart_asset_world "/proj" ∪ UnusedSet dart_asset_world "/proj" =
     FileUniverse dart_asset_world "/proj" ∧
   UsedSet dart_asset_world "/proj" ∩ UnusedSet dart_asset_world "/proj" = ∅).
Proof.
destruct dart_asset_run as (_ & Huniv & Hused & Hunused).
rewrite Huniv, Hused, Hunused. intros [H _].
assert ("/proj/lib/app/data.json" ∈ ({["/proj/main.dart"]} : gset string))
  as Hin by (rewrite <-H; set_solver).
apply elem_of_singleton in Hin. discriminate Hin.
Qed.

(** C5, as stated, fails for a raw import that starts with [package:] and
  ends in [.py]: the first rule applies, and the candidate is relative to
  the directory of the importing file, not to [lib]. *)
Lemma package_import_counterexample :
PyStr.startswith "package:app/utils.py" "package:" = true ∧
target_path_of "/proj" "/proj/bin/main.dart" "package:app/utils.py" =
  "/proj/bin/package:app/utils.py" ∧
Rules.package_candidate "/proj" "package:app/utils.py" =
  "/proj/lib/app/utils.py" ∧
target_path_of "/proj" "/proj/bin/main.dart" "package:app/utils.py" ≠
  Rules.package_candidate "/proj" "package:app/utils.py".
Proof. repeat split; vm_compute; (reflexivity || discriminate). Qed.

(** The package rule on [package:app/utils.dart], and the edge it gives in
    the project of [dart_package]. *)
Lemma package_import_resolution_witness :
target_path_of "/proj" "/proj/main.dart" "package:app/utils.dart" =
  Rules.package_candidate "/proj" "package:app/utils.dart" ∧
∃ deps,
  DependencyGraph dart_package_world "/proj" !! "/proj/main.dart" = Some deps ∧
  PosixPath.normpath (PosixPath.join "/proj" ["lib"; "app/utils.dart"]) ∈ deps.
Proof.
destruct package_import_resolution as [Hrule Hedge]. split.
- apply Hrule; vm_compute; reflexivity.
- apply Hedge; vm_compute; reflexivity.
Defined.

(** In a world whose existence check raises, the exception is caught and
    the analyzer is returned as it was. *)
Lemma resolve_import_never_raises_witness :
_resolve_import failing_world "/proj/a.py" "b" (__init__ "/proj")
= (Ok tt, __init__ "/proj").
Proof.
destruct (resolve_import_never_raises failing_world
            "/proj/a.py" "b" (__init__ "/proj")) as (self' & -> & _ & H).
f_equal. by eapply H.
Defined.

(** [/proj/b.dart] does not exist, and no edge is made; the one target of
    the graph of [dart_package] exists. *)
Lemma only_existing_targets_witness :
_resolve_import three_files_world "/proj/a.py" "b" (__init__ "/proj")
= (Ok tt, __init__ "/proj") ∧
os_path_exists dart_package_world "/proj/lib/app/utils.dart" = Ok true.
Proof.
split.
- apply (proj1 (only_existing_targets three_files_world)).
  vm_compute. discriminate.
- apply (proj2 (only_existing_targets dart_package_world) "/proj"
           "/proj/main.dart" {["/proj/lib/app/utils.dart"]}).
  + vm_compute. reflexivity.
  + set_solver.
Defined.

(** The dotted module [widgets.button] imported from [/proj/main.dart]. *)
Lemma dotted_module_resolution_witness :
target_path_of "/proj" "/proj/main.dart" "widgets.button" =
  Rules.dotted_candidate "/proj/main.dart" "widgets.button" ∧
Rules.dotted_candidate "/proj/main.dart" "widgets.button" =
  "/proj/widgets/button.dart" ∧
_resolve_import dart_modules_world "/proj/main.dart" "widgets.button"
  (__init__ "/proj") =
  (Ok tt,
   with_edge "/proj/main.dart"
     (Rules.dotted_candidate "/proj/main.dart" "widgets.button")
     (__init__ "/proj")).
Proof.
destruct (dotted_module_resolution dart_modules_world "/proj/main.dart"
            "widgets.button" (__init__ "/proj") eq_refl eq_refl)
  as [Hcand Hrun].
split; [exact Hcand|]. split; [vm_compute; reflexivity|].
apply Hrun. vm_compute. reflexivity.
Defined.

(** The sibling [b.py] imported from [/proj/a.py]. *)
Lemma sibling_import_recorded_witness :
Rules.sibling_candidate "/proj/a.py" "b.py" = "/proj/b.py" ∧
_resolve_import three_files_world "/proj/a.py" "b.py" (__init__ "/proj") =
  (Ok tt,
   with_edge "/proj/a.py" (Rules.sibling_candidate "/proj/a.py" "b.py")
     (__init__ "/proj")).
Proof.
split; [vm_compute; reflexivity|].
apply (sibling_import_recorded three_files_world "/proj/a.py" "b.py"
         (__init__ "/proj")); vm_compute; reflexivity.
Defined.

(** The one key of the graph of [dart_package]. *)
Lemma graph_keys_collected_nonempty_witness :
DependencyGraph dart_package_world "/proj" !! "/proj/main.dart" =
  Some {["/proj/lib/app/utils.dart"]} ∧
"/proj/main.dart" ∈ FileUniverse dart_package_world "/proj" ∧
({["/proj/lib/app/utils.dart"]} : gset string) ≠ ∅.
Proof.
assert (DependencyGraph dart_package_world "/proj" !! "/proj/main.dart" =
          Some {["/proj/lib/app/utils.dart"]}) as H
  by (vm_compute; reflexivity).
split; [exact H|].
exact (graph_keys_collected_nonempty dart_package_world "/proj"
         "/proj/main.dart" _ H).
Defined.

(** [/proj/bad.py] is read and does not parse. *)
Lemma unparsable_file_is_used_witness :
"/proj/bad.py" ∈ ScannedSet broken_files_world "/proj" ∧
"/proj/bad.py" ∈ UsedSet broken_files_world "/proj" ∧
DependencyGraph broken_files_world "/proj" !! "/proj/bad.py" = None ∧
"/proj/bad.py" ∉ UnusedSet broken_files_world "/proj".
Proof.
apply (unparsable_file_is_used broken_files_world "/proj" "/proj/bad.py"
         "def (" SyntaxError); vm_compute; reflexivity.
Defined.

(** [/proj/latin1.py] cannot be decoded, and no edge leads to it. *)
Lemma unreadable_file_unused_unless_target_witness :
("/proj/latin1.py" ∉ ScannedSet broken_files_world "/proj") ∧
"/proj/latin1.py" ∈ FileUniverse broken_files_world "/proj" ∧
("/proj/latin1.py" ∈ UnusedSet broken_files_world "/proj" ↔
 "/proj/latin1.py" ∉ edge_targets (DependencyGraph broken_files_world "/proj")).
Proof.
apply (unreadable_file_unused_unless_target broken_files_world "/proj"
         "/proj/latin1.py" UnicodeDecodeError); vm_compute; reflexivity.
Defined.

End Runs_on_scenarios.


(** ** The graph builder: inserting edges *)

Lemma lookup_dict_add k v d k' :
  dict_add k v d !! k' =
    if decide (k' = k) then Some (default ∅ (d !! k) ∪ {[v]}) else d !! k'.
Proof.
  unfold dict_add. case_decide as H.
  - subst. apply lookup_insert_eq.
  - by apply lookup_insert_ne.
Qed.

Lemma dict_add_idempotent k v d : dict_add k v (dict_add k v d) = dict_add k v d.
Proof.
  apply map_eq. intros k'. rewrite !lookup_dict_add.
  case_decide; [|done]. rewrite decide_True by done. cbn. f_equal. set_solver.
Qed.

Lemma dict_add_comm k1 v1 k2 v2 d :
  dict_add k1 v1 (dict_add k2 v2 d) = dict_add k2 v2 (dict_add k1 v1 d).
Proof.
  apply map_eq. intros k'. rewrite !lookup_dict_add.
  repeat case_decide; simplify_eq; cbn; try done. f_equal. set_solver.
Qed.

Lemma record_edge_root source target self :
  project_root (record_edge source target self) = project_root self.
Proof. by destruct target. Qed.

Lemma record_edge_idempotent source target self :
  record_edge source target (record_edge source target self) =
    record_edge source target self.
Proof.
  destruct target as [t|]; [|done]. unfold record_edge; simpl_self.
  by rewrite dict_add_idempotent.
Qed.

Lemma record_edge_comm s1 t1 s2 t2 self :
  record_edge s1 t1 (record_edge s2 t2 self) =
    record_edge s2 t2 (record_edge s1 t1 self).
Proof.
  destruct t1 as [t1|], t2 as [t2|]; try done.
  unfold record_edge; simpl_self. by rewrite dict_add_comm.
Qed.

Lemma seq_run {A} (m1 : M A) (m2 : M unit) self a self' :
  m1 self = (Ok a, self') -> (m1;; m2) self = m2 self'.
Proof. intros H. unfold mbind, M_bind. by rewrite H. Qed.

(** X1: recording the same import of the same file twice leaves the
    analyzer as recording it once does. *)
Theorem resolve_import_idempotent (w : World)
  (source_file import_path : string) (self : ProjectAnalyzer) :
  (_resolve_import w source_file import_path;;
   _resolve_import w source_file import_path) self =
    _resolve_import w source_file import_path self.
Proof.
  rewrite (seq_run _ _ _ _ _ (_resolve_import_run w _ _ _)).
  rewrite !_resolve_import_run, record_edge_root.
  by rewrite record_edge_idempotent.
Qed.

(** X2: two calls of [_resolve_import] give the same analyzer in either
    order, whatever the files and imports. *)
Theorem resolve_import_commutes (w : World)
  (source1 import1 source2 import2 : string) (self : ProjectAnalyzer) :
  (_resolve_import w source1 import1;; _resolve_import w source2 import2) self =
  (_resolve_import w source2 import2;; _resolve_import w source1 import1) self.
Proof.
  rewrite !(seq_run _ _ _ _ _ (_resolve_import_run w _ _ _)).
  rewrite !_resolve_import_run, !record_edge_root.
  by rewrite record_edge_comm.
Qed.

(** X3: [_resolve_import] changes nothing but the dependency graph, and in
    the graph nothing but the entry of the importing file, which it never
    shrinks: every edge there was is still there. *)
Theorem resolve_import_frame (w : World)
  (source_file import_path : string) (self : ProjectAnalyzer) :
  let self' := snd (_resolve_import w source_file import_path self) in
  project_root self' = project_root self ∧
  all_files self' = all_files self ∧
  used_files self' = used_files self ∧
  unused_files self' = unused_files self ∧
  (∀ k, k ≠ source_file ->
        file_dependencies self' !! k = file_dependencies self !! k) ∧
  (∀ k t, has_edge (file_dependencies self) k t ->
          has_edge (file_dependencies self') k t).
Proof.
  cbn zeta. rewrite _resolve_import_run. cbn [snd].
  destruct (resolved w (project_root self) source_file import_path) as [t|];
    unfold record_edge; simpl_self; [|done].
  repeat split; try done.
  - intros k Hk. rewrite lookup_dict_add. by rewrite decide_False.
  - intros k t' (deps & Hdeps & Hin). unfold has_edge.
    rewrite lookup_dict_add. case_decide as Hk; [|by exists deps].
    subst k. rewrite Hdeps. eexists. split; [done|]. set_solver.
Qed.

(** ** The classifier *)

Lemma used_and_targets_eq self :
  used_and_targets self = used_files self ∪ edge_targets (file_dependencies self).
Proof.
  apply set_eq. intros x.
  by rewrite elem_of_used_and_targets, elem_of_union, elem_of_edge_targets.
Qed.

Lemma classify_idempotent self : classify (classify self) = classify self.
Proof.
  unfold classify. rewrite !used_and_targets_eq. simpl_self.
  rewrite ?used_and_targets_eq. f_equal; set_solver.
Qed.

(** X10: [_find_unused_files] is idempotent: run a second time, on any
    analyzer, it changes nothing. *)
Theorem find_unused_files_idempotent (self : ProjectAnalyzer) :
  (_find_unused_files;; _find_unused_files) self = _find_unused_files self.
Proof.
  rewrite (seq_run _ _ _ _ _ (_find_unused_files_run _)).
  rewrite !_find_unused_files_run. f_equal. apply classify_idempotent.
Qed.

(** ** The collector *)

Lemma elem_of_CollectedSet w root path :
  path ∈ CollectedSet w root ↔
    ∃ dir dirs files file,
      (dir, dirs, files) ∈ os_walk w root ∧
      file ∈ files ∧
      PyStr.endswith_any file collected_suffixes = true ∧
      path = PosixPath.join dir [file].
Proof.
  rewrite CollectedSet_eq. unfold universe, collected.
  rewrite elem_of_list_to_set, list_elem_of_In, in_concat. split.
  - intros (l & Hl & Hpath). apply list_elem_of_In in Hl, Hpath.
    apply list_elem_of_fmap in Hl as ([[dir dirs] files] & -> & Hwalk).
    apply list_elem_of_fmap in Hpath as (file & -> & Hfile).
    apply list_elem_of_In, filter_In in Hfile as [Hfile Hsuf].
    exists dir, dirs, files, file. repeat split; try done.
    by apply list_elem_of_In.
  - intros (dir & dirs & files & file & Hwalk & Hfile & Hsuf & ->).
    eexists. rewrite <-!list_elem_of_In.
    split; [apply list_elem_of_fmap; by exists (dir, dirs, files)|].
    cbn. apply list_elem_of_fmap. exists file. split; [done|].
    apply list_elem_of_In, filter_In. by rewrite <-list_elem_of_In.
Qed.

(** X4: the paths [_collect_all_files] puts into [all_files] of a fresh
    analyzer are exactly the joins [os.path.join(dir, file)] of a directory
    the walk yields and a file name it lists there that ends in one of the
    five suffixes. *)
Theorem collected_files_characterised (w : World) (root path : string) :
  path ∈ CollectedSet w root ↔
    ∃ dir dirs files file,
      (dir, dirs, files) ∈ os_walk w root ∧
      file ∈ files ∧
      PyStr.endswith_any file collected_suffixes = true ∧
      path = PosixPath.join dir [file].
Proof. apply elem_of_CollectedSet. Qed.

(** ** The scan loop *)

Lemma scan_one_run w file_path self :
  scan_one w file_path self = (Ok tt, scan_file w file_path self).
Proof.
  unfold scan_one, try_except, scan_file, raw_imports, mbind, M_bind, call,
    update.
  destruct (open_read w file_path) as [content|e]; [|done].
  destruct (PyStr.endswith file_path ".py").
  - by rewrite _analyze_python_imports_run.
  - destruct (PyStr.endswith file_path ".dart"); [|done].
    by rewrite _analyze_dart_imports_run.
Qed.

Lemma scan_loop_run w files self :
  scan_loop w files self =
    (Ok tt, foldl (λ s f, scan_file w f s) self files).
Proof. apply (for_each_run (scan_file w)). apply scan_one_run. Qed.

(** [_analyze_imports] is the scan loop over the elements of [all_files]. *)
Lemma _analyze_imports_scan_loop w self :
  _analyze_imports w self = scan_loop w (elements (all_files self)) self.
Proof. reflexivity. Qed.

Lemma graph_after_perm w root (l1 l2 : list string) g :
  l1 ≡ₚ l2 -> graph_after w root l1 g = graph_after w root l2 g.
Proof.
  intros Hperm. apply map_eq. intros k. rewrite !lookup_graph_after.
  repeat case_decide; try done; destruct_and?.
  - exfalso. rewrite Hperm in *. naive_solver.
  - exfalso. rewrite <-Hperm in *. naive_solver.
Qed.

(** X6: the scan loop leaves the same analyzer whatever the order in which
    it visits the files: the order in which Python iterates over the set
    [all_files] has no effect on the result. *)
Theorem scan_order_irrelevant (w : World) (files1 files2 : list string)
  (self : ProjectAnalyzer) :
  files1 ≡ₚ files2 ->
  scan_loop w files1 self = scan_loop w files2 self.
Proof.
  intros Hperm. rewrite !scan_loop_run, !scan_files_eq.
  rewrite (graph_after_perm _ _ _ _ _ Hperm).
  assert ((list_to_set files1 : gset string) = list_to_set files2) as ->; [|done].
  apply set_eq. intros x. rewrite !elem_of_list_to_set. by rewrite Hperm.
Qed.

(** X7: [_analyze_imports], run on any analyzer, returns; it leaves the
    root, [all_files] and [unused_files] as they were, takes no file out of
    [used_files] and no edge out of the graph. *)
Theorem analyze_imports_accumulates (w : World) (self : ProjectAnalyzer) :
  let self' := snd (_analyze_imports w self) in
  fst (_analyze_imports w self) = Ok tt ∧
  project_root self' = project_root self ∧
  all_files self' = all_files self ∧
  unused_files self' = unused_files self ∧
  used_files self ⊆ used_files self' ∧
  (∀ k t, has_edge (file_dependencies self) k t ->
          has_edge (file_dependencies self') k t).
Proof.
  cbn zeta. rewrite _analyze_imports_run, scan_files_eq. cbn [fst snd].
  simpl_self. repeat split; try done; [set_solver|].
  intros k t (deps & Hdeps & Hin). unfold has_edge.
  rewrite lookup_graph_after, Hdeps. case_decide; [|by exists deps].
  eexists. split; [done|]. cbn. set_solver.
Qed.

(** ** The graph and the classification after a run *)

Lemma file_targets_nonempty_readable w root f :
  file_targets w root f ≠ ∅ -> readable w f.
Proof.
  unfold file_targets, file_imports, readable.
  destruct (open_read w f) as [content|e]; [by exists content|].
  intros H. by destruct H.
Qed.

(** X9: the final graph has the edge from [f] to [t] exactly when [f] was
    collected and one of the raw imports extracted from it has [t] as its
    candidate path, for which [os.path.exists] returned [True]. *)
Theorem edge_characterised (w : World) (root f t : string) :
  has_edge (DependencyGraph w root) f t ↔
    f ∈ FileUniverse w root ∧
    ∃ import_path,
      import_path ∈ file_imports w f ∧
      t = target_path_of root f import_path ∧
      os_path_exists w t = Ok true.
Proof.
  unfold has_edge. rewrite FileUniverse_eq. split.
  - intros (deps & Hdeps & Hin). rewrite lookup_DependencyGraph in Hdeps.
    case_decide as H; [|done]. destruct H as [Hf _]. injection Hdeps as <-.
    split; [done|]. apply elem_of_file_targets in Hin as (imp & Himp & Hres).
    apply resolved_Some in Hres as [-> Hex]. by exists imp.
  - intros (Hf & imp & Himp & -> & Hex).
    assert (target_path_of root f imp ∈ file_targets w root f) as Hin.
    { apply elem_of_file_targets. exists imp. split; [done|].
      by apply resolved_Some. }
    exists (file_targets w root f). split; [|done].
    rewrite lookup_DependencyGraph. rewrite decide_True; [done|].
    split; [done|]. set_solver.
Qed.

(** X8: a file whose name ends neither in [.py] nor in [.dart] (the
    [.kt], [.java] and [.xml] files the collector keeps) never has an entry
    in the graph; when it was collected and can be read it is used all the
    same. *)
Theorem other_languages_no_edges (w : World) (root f : string) :
  PyStr.endswith f ".py" = false ->
  PyStr.endswith f ".dart" = false ->
  DependencyGraph w root !! f = None ∧
  (f ∈ CollectedSet w root -> readable w f ->
   f ∈ UsedSet w root ∧ f ∉ UnusedSet w root).
Proof.
  intros Hpy Hdart. split.
  - apply no_targets_no_entry. unfold file_targets, file_imports, raw_imports.
    rewrite Hpy, Hdart. by destruct (open_read w f).
  - rewrite CollectedSet_eq. intros Hin Hread.
    assert (f ∈ UsedSet w root) as Hused.
    { rewrite UsedSet_eq, ScannedSet_eq. apply elem_of_union_l.
      by apply elem_of_filter. }
    split; [done|]. rewrite UnusedSet_eq. set_solver.
Qed.

(** X11: a file is reported unused exactly when it was collected, could not
    be read, and is the target of no edge. *)
Theorem unused_characterised (w : World) (root f : string) :
  f ∈ UnusedSet w root ↔
    f ∈ FileUniverse w root ∧ ¬ readable w f ∧
    f ∉ edge_targets (DependencyGraph w root).
Proof.
  rewrite UnusedSet_eq, UsedSet_eq, ScannedSet_eq, FileUniverse_eq.
  rewrite elem_of_difference, elem_of_union, elem_of_filter. naive_solver.
Qed.

(** X12: neither end of an edge of the final graph is reported unused: the
    importing file and the target are both in the used set. *)
Theorem edge_ends_are_used (w : World) (root f t : string) :
  has_edge (DependencyGraph w root) f t ->
  f ∈ UsedSet w root ∧ t ∈ UsedSet w root ∧
  (f ∉ UnusedSet w root) ∧ (t ∉ UnusedSet w root).
Proof.
  intros (deps & Hdeps & Hin).
  assert (t ∈ UsedSet w root) as Ht.
  { rewrite UsedSet_eq. apply elem_of_union_r, elem_of_edge_targets.
    by exists f, deps. }
  assert (f ∈ UsedSet w root) as Hf.
  { rewrite lookup_DependencyGraph in Hdeps. case_decide as H; [|done].
    destruct H as [Hu Hne]. rewrite UsedSet_eq, ScannedSet_eq.
    apply elem_of_union_l, elem_of_filter. split; [|done].
    by eapply file_targets_nonempty_readable. }
  rewrite UnusedSet_eq. set_solver.
Qed.


(** ** Running the analysis again *)

Lemma analyze_project_run w self :
  analyze_project w self = (Ok tt, run_effect w self).
Proof.
  unfold analyze_project, mbind, M_bind.
  rewrite _collect_all_files_run, _analyze_imports_run, _find_unused_files_run.
  unfold _log_results, logging_info, mret, M_ret. f_equal.
  rewrite add_files_eq. simpl_self.
  rewrite scan_files_eq. simpl_self.
  unfold classify. rewrite used_and_targets_eq. simpl_self.
  unfold run_effect, universe. cbn zeta.
  by rewrite list_to_set_elements_L.
Qed.

Lemma graph_after_twice w root (l : list string) g :
  graph_after w root l (graph_after w root l g) = graph_after w root l g.
Proof.
  apply map_eq. intros k. rewrite !lookup_graph_after.
  case_decide; [|done]. cbn. f_equal. set_solver.
Qed.

(** X13: running [analyze_project] a second time on the same analyzer, in
    the same world, changes nothing. *)
Theorem analyze_project_idempotent (w : World) (self : ProjectAnalyzer) :
  (analyze_project w;; analyze_project w) self = analyze_project w self.
Proof.
  rewrite (seq_run _ _ _ _ _ (analyze_project_run w self)).
  rewrite !analyze_project_run. f_equal.
  unfold run_effect at 1. cbn zeta. simpl_self.
  replace (all_files (run_effect w self) ∪ universe w (project_root (run_effect w self)))
    with (all_files self ∪ universe w (project_root self))
    by (unfold run_effect; simpl_self; set_solver).
  unfold run_effect. cbn zeta. simpl_self.
  rewrite graph_after_twice. f_equal; set_solver.
Qed.

(** ** The Dart extractor *)

Lemma lazy_until_quote_group s g r :
  DartRegex.lazy_until_quote s = Some (g, r) ->
  has_char is_newline g = false ∧ has_char DartRegex.is_quote g = false.
Proof.
  revert g. induction s as [|c s IH]; intros g; [done|]. cbn.
  destruct (DartRegex.is_quote c) eqn:Hq; [by intros [= <- <-]|].
  destruct (Ascii.eqb c DartRegex.newline) eqn:Hn; [done|].
  destruct (DartRegex.lazy_until_quote s) as [[g' r']|]; [|done].
  intros [= <- <-]. destruct (IH g' eq_refl) as [H1 H2].
  cbn. unfold is_newline at 1. by rewrite Hn, Hq, H1, H2.
Qed.

Lemma group_then_quote_group s g r :
  DartRegex.group_then_quote s = Some (g, r) ->
  ∃ c g', g = String c g' ∧ is_newline c = false ∧
          has_char is_newline g' = false ∧
          has_char DartRegex.is_quote g' = false.
Proof.
  destruct s as [|c s]; [done|]. cbn.
  destruct (Ascii.eqb c DartRegex.newline) eqn:Hn; [done|].
  destruct (DartRegex.lazy_until_quote s) as [[g' r']|] eqn:Hl; [|done].
  intros [= <- <-]. exists c, g'.
  by destruct (lazy_until_quote_group _ _ _ Hl).
Qed.

Lemma match_at_group s g len :
  DartRegex.match_at s = Some (g, len) ->
  ∃ c g', g = String c g' ∧ is_newline c = false ∧
          has_char is_newline g' = false ∧
          has_char DartRegex.is_quote g' = false.
Proof.
  unfold DartRegex.match_at.
  destruct (String.prefix "import" s); [|done].
  destruct (DartRegex.span_space (DartRegex.skip 6 s)) as [[|n] [|q r]];
    try done.
  destruct (DartRegex.is_quote q); [|done].
  destruct (DartRegex.group_then_quote r) as [[g0 rest]|] eqn:Hg; [|done].
  intros [= <- _]. by eapply group_then_quote_group.
Qed.

Lemma finditer_from_match skip s g :
  g ∈ DartRegex.finditer_from skip s ->
  ∃ s' len, DartRegex.match_at s' = Some (g, len).
Proof.
  revert skip. induction s as [|c s IH]; intros skip.
  - cbn. by intros ?%elem_of_nil.
  - cbn [DartRegex.finditer_from]. destruct skip as [|k]; [|apply IH].
    destruct (DartRegex.match_at (String c s)) as [[g0 len]|] eqn:Hm;
      [|apply IH].
    intros [->|Hin]%elem_of_cons; [by eauto|]. by eapply IH.
Qed.

(** X14: every import path the Dart scan extracts is non-empty and holds
    no newline; after its first character it holds no quote either, single
    or double. *)
Theorem dart_imports_shape (content path : string) :
  path ∈ DartRegex.finditer_groups content ->
  ∃ c rest,
    path = String c rest ∧
    has_char is_newline path = false ∧
    has_char DartRegex.is_quote rest = false.
Proof.
  intros Hin. apply finditer_from_match in Hin as (s' & len & Hm).
  apply match_at_group in Hm as (c & g' & -> & Hc & Hn & Hq).
  exists c, g'. cbn. by rewrite Hc, Hn.
Qed.

Lemma append_nil_l s : "" +:+ s = s.
Proof. reflexivity. Qed.

Lemma length_append s t :
  String.length (s +:+ t) = String.length s + String.length t.
Proof.
  induction s as [|c s IH]; [done|].
  rewrite append_cons. cbn. by rewrite IH.
Qed.

Lemma append_assoc s t u : (s +:+ t) +:+ u = s +:+ (t +:+ u).
Proof.
  induction s as [|c s IH]; [done|]. rewrite !append_cons. by rewrite IH.
Qed.

Lemma lazy_until_quote_plain g q r :
  has_char is_newline g = false ->
  has_char DartRegex.is_quote g = false ->
  DartRegex.is_quote q = true ->
  DartRegex.lazy_until_quote (g +:+ String q r) = Some (g, r).
Proof.
  intros Hn Hq Hquote. induction g as [|c g IH].
  - rewrite append_nil_l. cbn. by rewrite Hquote.
  - rewrite append_cons. cbn in Hn, Hq |- *.
    apply orb_false_iff in Hn as [Hc Hn]. apply orb_false_iff in Hq as [Hcq Hq].
    unfold is_newline in Hc. by rewrite Hcq, Hc, (IH Hn Hq).
Qed.

Lemma finditer_from_skip p r :
  DartRegex.finditer_from (String.length p) (p +:+ r) =
    DartRegex.finditer_from 0 r.
Proof.
  induction p as [|c p IH]; [done|]. rewrite append_cons. cbn. apply IH.
Qed.

Lemma match_at_dart_import path :
  path ≠ "" ->
  has_char is_newline path = false ->
  has_char DartRegex.is_quote path = false ->
  DartRegex.match_at (dart_import path) =
    Some (path, String.length (dart_import path) - 1).
Proof.
  intros Hne Hn Hq. destruct path as [|c path]; [done|].
  cbn in Hn, Hq. apply orb_false_iff in Hn as [Hc Hn].
  apply orb_false_iff in Hq as [Hcq Hq]. unfold is_newline in Hc.
  unfold dart_import, DartRegex.match_at.
  rewrite !append_cons, append_nil_l.
  set (s := String c (path +:+ "';")).
  match goal with
  | |- context [String.prefix ?a ?b] =>
      replace (String.prefix a b) with true by reflexivity
  end.
  cbn [DartRegex.skip].
  replace (DartRegex.span_space (String " " (String "'" s)))
    with (1, String "'" s) by reflexivity.
  replace (DartRegex.is_quote "'") with true by reflexivity.
  subst s. cbn [DartRegex.group_then_quote]. rewrite Hc.
  rewrite (lazy_until_quote_plain path "'" ";"); [|done..].
  do 2 f_equal.
Qed.

Lemma finditer_groups_dart_import path :
  path ≠ "" ->
  has_char is_newline path = false ->
  has_char DartRegex.is_quote path = false ->
  DartRegex.finditer_groups (dart_import path) = [path].
Proof.
  intros Hne Hn Hq.
  pose proof (match_at_dart_import path Hne Hn Hq) as Hm.
  unfold DartRegex.finditer_groups.
  assert (dart_import path = String "i" (("mport '" +:+ path +:+ "'") +:+ ";"))
    as Hshape.
  { unfold dart_import. rewrite !append_assoc. reflexivity. }
  rewrite Hshape in *. cbn [DartRegex.finditer_from]. rewrite Hm. f_equal.
  cbn [String.length]. rewrite length_append.
  replace (S (String.length ("mport '" +:+ path +:+ "'") + String.length ";")
           - 1 - 1)
    with (String.length ("mport '" +:+ path +:+ "'")) by (cbn; lia).
  by rewrite finditer_from_skip.
Qed.

(** X15: scanning the text [import 'path';] gives back exactly [path],
    for every non-empty path without newline and quote. *)
Theorem dart_import_round_trip (path : string) :
  path ≠ "" ->
  has_char is_newline path = false ->
  has_char DartRegex.is_quote path = false ->
  DartRegex.finditer_groups (dart_import path) = [path].
Proof. apply finditer_groups_dart_import. Qed.

(** ** The two analyzers of a file *)

Lemma resolve_all_adds_edges w file_path imports self :
  adds_edges_of file_path self (resolve_all w file_path imports self).
Proof.
  rewrite resolve_all_eq. unfold adds_edges_of; simpl_self.
  repeat split; try done.
  - intros k Hk. rewrite lookup_add_targets. rewrite decide_False; naive_solver.
  - intros k t (deps & Hdeps & Hin). unfold has_edge.
    rewrite lookup_add_targets, Hdeps. case_decide; [|by exists deps].
    eexists. split; [done|]. cbn. set_solver.
Qed.

(** X16: [_analyze_python_imports] and [_analyze_dart_imports] return
    whatever the content is (a parse error is caught), and change nothing of
    the analyzer but the graph entry of the file they were given, to which
    they only add. *)
Theorem file_analyzers_frame (w : World) (file_path content : string)
  (self : ProjectAnalyzer) :
  (fst (_analyze_python_imports w file_path content self) = Ok tt ∧
   adds_edges_of file_path self
     (snd (_analyze_python_imports w file_path content self))) ∧
  (fst (_analyze_dart_imports w file_path content self) = Ok tt ∧
   adds_edges_of file_path self
     (snd (_analyze_dart_imports w file_path content self))).
Proof.
  rewrite _analyze_python_imports_run, _analyze_dart_imports_run. cbn [fst snd].
  split; (split; [done|apply resolve_all_adds_edges]).
Qed.

(** ** The report of the graph *)

Lemma ltb_irrefl x : String.ltb x x = false.
Proof.
  unfold String.ltb. pose proof (String.compare_antisym x x) as H.
  destruct (String.compare x x); done.
Qed.

Lemma ltb_asym x y : String.ltb x y = true -> String.ltb y x = false.
Proof.
  unfold String.ltb. rewrite (String.compare_antisym x y).
  by destruct (String.compare y x).
Qed.

Lemma list_lt_irrefl a : PosixRel.list_lt a a = false.
Proof.
  induction a as [|x a IH]; [done|]. cbn. by rewrite String.eqb_refl.
Qed.

Lemma list_lt_asym a b :
  PosixRel.list_lt a b = true -> PosixRel.list_lt b a = false.
Proof.
  revert b. induction a as [|x a IH]; intros [|y b]; try done. cbn.
  rewrite (String.eqb_sym y x). destruct (String.eqb x y); [apply IH|].
  apply ltb_asym.
Qed.

Lemma max2_not_below_min2 a b :
  PosixRel.list_lt (PosixRel.max2 a b) (PosixRel.min2 a b) = false.
Proof.
  unfold PosixRel.max2, PosixRel.min2.
  destruct (PosixRel.list_lt a b) eqn:Hab, (PosixRel.list_lt b a) eqn:Hba;
    try done.
  - by rewrite (list_lt_asym _ _ Hab) in Hba.
  - apply list_lt_irrefl.
Qed.

(** The index into [s2] is never out of range when [s2] is not below
    [s1]. *)
Lemma common_returns s1 s2 :
  PosixRel.list_lt s2 s1 = false -> ∃ pre, PosixRel.common s1 s2 = Ok pre.
Proof.
  revert s2. induction s1 as [|c s1 IH]; intros s2 H; [by eexists|].
  destruct s2 as [|d s2]; [done|]. cbn in H |- *.
  rewrite (String.eqb_sym d c) in H. destruct (String.eqb c d); [|by eexists].
  destruct (IH _ H) as [pre ->]. by eexists.
Qed.

Lemma relpath_returns cwd path start :
  path ≠ "" -> ∃ r, PosixRel.relpath cwd path start = Ok r.
Proof.
  intros Hne. unfold PosixRel.relpath, PosixRel.commonprefix.
  apply String.eqb_neq in Hne as ->.
  destruct (common_returns _ _ (max2_not_below_min2
              (PosixRel.components (PosixRel.abspath cwd start))
              (PosixRel.components (PosixRel.abspath cwd path)))) as [pre ->].
  destruct (_ ++ _)%list; by eexists.
Qed.

Lemma map_outcome_returns {A B} (f : A -> outcome B) (l : list A) :
  (∀ x, x ∈ l -> ∃ y, f x = Ok y) -> ∃ ys, map_outcome f l = Ok ys.
Proof.
  induction l as [|x l IH]; intros H; [by eexists|]. cbn.
  destruct (H x) as [y ->]; [by left|].
  destruct IH as [ys ->]; [|by eexists]. intros x' Hx'. apply H. by right.
Qed.

Lemma report_items_returns cwd root items acc :
  (∀ k vs, (k, vs) ∈ items -> k ≠ "" ∧ ∀ v, v ∈ vs -> v ≠ "") ->
  ∃ d, report_items cwd root items acc = Ok d.
Proof.
  revert acc. induction items as [|[k vs] items IH]; intros acc H;
    [by eexists|].
  cbn. destruct (H k vs) as [Hk Hvs]; [by left|].
  destruct (relpath_returns cwd k root Hk) as [k' ->].
  destruct (map_outcome_returns (λ v, PosixRel.relpath cwd v root) (elements vs))
    as [vs' ->].
  { intros v Hv%elem_of_elements. by apply relpath_returns, Hvs. }
  apply IH. intros k0 vs0 Hin. apply H. by right.
Qed.

Lemma normpath_nonempty p : PosixPath.normpath p ≠ "".
Proof.
  unfold PosixPath.normpath. destruct (String.eqb p ""); [done|].
  cbv zeta. match goal with |- context [String.eqb ?x ""] =>
    destruct (String.eqb x "") eqn:E end; [done|].
  by apply String.eqb_neq in E.
Qed.

Lemma target_path_of_nonempty root source_file import_path :
  target_path_of root source_file import_path ≠ "".
Proof.
  unfold target_path_of.
  repeat match goal with |- context [if ?b then _ else _] => destruct b end;
    apply normpath_nonempty.
Qed.

Lemma append_nonempty_r s t : t ≠ "" -> s +:+ t ≠ "".
Proof. intros Ht. destruct s; [done|]. by rewrite append_cons. Qed.

Lemma join2_nonempty path b : b ≠ "" -> PosixPath.join2 path b ≠ "".
Proof.
  intros Hb. unfold PosixPath.join2.
  repeat match goal with |- context [if ?c then _ else _] => destruct c end;
    try done; repeat apply append_nonempty_r; done.
Qed.

Lemma collected_nonempty w root path : path ∈ universe w root -> path ≠ "".
Proof.
  rewrite <-CollectedSet_eq, elem_of_CollectedSet.
  intros (dir & dirs & files & file & _ & _ & Hsuf & ->).
  unfold PosixPath.join. cbn [fold_left]. apply join2_nonempty.
  by intros ->.
Qed.

(** X17: after an analysis, [get_dependency_graph] returns: no key and no
    target of the graph is the empty path, the one thing [relpath] raises
    on. *)
Theorem get_dependency_graph_returns (w : World) (cwd root : string) :
  ∃ report, get_dependency_graph cwd (final_state w root) = Ok report.
Proof.
  unfold get_dependency_graph. apply report_items_returns.
  intros k vs Hin%elem_of_map_to_list.
  fold (DependencyGraph w root) in Hin.
  rewrite lookup_DependencyGraph in Hin. case_decide as H; [|done].
  destruct H as [Hk _]. injection Hin as <-. split.
  - by eapply collected_nonempty.
  - intros v (imp & _ & Hres)%elem_of_file_targets.
    apply resolved_Some in Hres as [-> _]. apply target_path_of_nonempty.
Qed.

Lemma report_items_entries cwd root items acc d :
  report_items cwd root items acc = Ok d ->
  (∀ k' vs', d !! k' = Some vs' ->
     acc !! k' = Some vs' ∨
     ∃ k deps, (k, deps) ∈ items ∧
               PosixRel.relpath cwd k root = Ok k' ∧
               map_outcome (λ v, PosixRel.relpath cwd v root) (elements deps)
                 = Ok vs') ∧
  (∀ k', is_Some (acc !! k') -> is_Some (d !! k')) ∧
  (∀ k deps, (k, deps) ∈ items ->
     ∃ k', PosixRel.relpath cwd k root = Ok k' ∧ is_Some (d !! k')).
Proof.
  revert acc. induction items as [|[k vs] items IH]; intros acc.
  - cbn. intros [= ->]. repeat split; [by left|done|].
    by intros k deps ?%elem_of_nil.
  - cbn [report_items].
    destruct (PosixRel.relpath cwd k root) as [k1|e] eqn:Hk; [|done].
    destruct (map_outcome _ (elements vs)) as [vs1|e] eqn:Hvs; [|done].
    intros Hrest. destruct (IH _ Hrest) as (H1 & H2 & H3). repeat split.
    + intros k' vs' Hd. destruct (H1 k' vs' Hd) as [Hacc|Hex].
      * rewrite lookup_insert in Hacc. case_decide as Heq; [|by left].
        right. exists k, vs. injection Hacc as <-. subst k'.
        split; [by left|done].
      * right. destruct Hex as (k0 & deps0 & Hin & ?). exists k0, deps0.
        split; [by right|done].
    + intros k' Hacc. apply H2. rewrite lookup_insert.
      case_decide; [by eexists|done].
    + intros k0 deps0 [[= -> ->]|Hin]%elem_of_cons.
      * exists k1. split; [done|]. apply H2. rewrite lookup_insert_eq.
        by eexists.
      * by apply (H3 k0 deps0).
Qed.

Lemma report_entries cwd self (report : gmap string (list string)) :
  get_dependency_graph cwd self = Ok report ->
  (∀ k' vs', report !! k' = Some vs' ->
     ∃ k deps,
       file_dependencies self !! k = Some deps ∧
       PosixRel.relpath cwd k (project_root self) = Ok k' ∧
       map_outcome (λ v, PosixRel.relpath cwd v (project_root self))
         (elements deps) = Ok vs') ∧
  (∀ k deps, file_dependencies self !! k = Some deps ->
     ∃ k', PosixRel.relpath cwd k (project_root self) = Ok k' ∧
           is_Some (report !! k')).
Proof.
  unfold get_dependency_graph. intros Hrun.
  destruct (report_items_entries _ _ _ _ _ Hrun) as (H1 & _ & H3). split.
  - intros k' vs' Hd. destruct (H1 k' vs' Hd) as [Hacc|(k & deps & Hin & ?)].
    + by rewrite lookup_empty in Hacc.
    + exists k, deps. by rewrite <-elem_of_map_to_list.
  - intros k deps Hk. apply (H3 k deps). by apply elem_of_map_to_list.
Qed.

(** X18: what [get_dependency_graph] returns holds nothing but entries of
    the graph made relative to the project root, key and values alike, and
    it has the relative form of every key of the graph. *)
Theorem get_dependency_graph_entries (cwd : string) (self : ProjectAnalyzer)
  (report : gmap string (list string)) :
  get_dependency_graph cwd self = Ok report ->
  (∀ k' vs', report !! k' = Some vs' ->
     ∃ k deps,
       file_dependencies self !! k = Some deps ∧
       PosixRel.relpath cwd k (project_root self) = Ok k' ∧
       map_outcome (λ v, PosixRel.relpath cwd v (project_root self))
         (elements deps) = Ok vs') ∧
  (∀ k deps, file_dependencies self !! k = Some deps ->
     ∃ k', PosixRel.relpath cwd k (project_root self) = Ok k' ∧
           is_Some (report !! k')).
Proof. apply report_entries. Qed.

(** ** Paths made of plain components *)

Lemma plain_inv c :
  plain c = true ->
  c ≠ "" ∧ String.eqb c "" = false ∧ String.eqb c "." = false ∧
  String.eqb c ".." = false ∧
  has_char (Ascii.eqb PosixPath.sep_char) c = false.
Proof.
  unfold plain. rewrite !andb_true_iff, !negb_true_iff.
  intros [[[H1 H2] H3] H4]. repeat split; try done. by apply String.eqb_neq.
Qed.

Lemma plain_head c :
  plain c = true ->
  ∃ x c', c = String x c' ∧ Ascii.eqb PosixPath.sep_char x = false.
Proof.
  intros (Hne & _ & _ & _ & Hsep)%plain_inv. destruct c as [|x c']; [done|].
  exists x, c'. split; [done|]. cbn in Hsep. by apply orb_false_iff in Hsep as [? _].
Qed.

Lemma sep_append s : PosixPath.sep +:+ s = String PosixPath.sep_char s.
Proof. reflexivity. Qed.

Lemma split_no_sep c :
  has_char (Ascii.eqb PosixPath.sep_char) c = false ->
  PyStr.split PosixPath.sep_char c = [c].
Proof.
  induction c as [|x c IH]; [done|]. cbn [has_char PyStr.split].
  intros [Hx Hc]%orb_false_iff. rewrite Ascii.eqb_sym, Hx. by rewrite (IH Hc).
Qed.

Lemma split_app_sep c s :
  has_char (Ascii.eqb PosixPath.sep_char) c = false ->
  PyStr.split PosixPath.sep_char (c +:+ String PosixPath.sep_char s) =
    c :: PyStr.split PosixPath.sep_char s.
Proof.
  induction c as [|x c IH].
  - intros _. rewrite append_nil_l. cbn [PyStr.split].
    by rewrite Ascii.eqb_refl.
  - cbn [has_char]. intros [Hx Hc]%orb_false_iff.
    rewrite append_cons. cbn [PyStr.split].
    rewrite Ascii.eqb_sym, Hx. by rewrite (IH Hc).
Qed.

Lemma join_cons2 c c2 rest :
  PyStr.join PosixPath.sep (c :: c2 :: rest) =
    c +:+ String PosixPath.sep_char (PyStr.join PosixPath.sep (c2 :: rest)).
Proof. reflexivity. Qed.

(** [sep.join(comps).split(sep) == comps] for plain components. *)
Lemma split_join comps :
  comps ≠ [] -> forallb plain comps = true ->
  PyStr.split PosixPath.sep_char (PyStr.join PosixPath.sep comps) = comps.
Proof.
  induction comps as [|c comps IH]; [done|]. intros _.
  cbn [forallb]. intros [Hc Hrest]%andb_true_iff.
  apply plain_inv in Hc as (_ & _ & _ & _ & Hsep).
  destruct comps as [|c2 comps]; [by apply split_no_sep|].
  rewrite join_cons2, split_app_sep by done. f_equal. by apply IH.
Qed.

Lemma split_absolute comps :
  comps ≠ [] -> forallb plain comps = true ->
  PyStr.split PosixPath.sep_char (absolute comps) = "" :: comps.
Proof.
  intros Hne Hplain. unfold absolute. rewrite sep_append.
  cbn [PyStr.split]. rewrite Ascii.eqb_refl. f_equal. by apply split_join.
Qed.

Lemma norm_comps_plain n comps acc :
  forallb plain comps = true ->
  PosixPath.norm_comps n comps acc = (rev acc ++ comps)%list.
Proof.
  revert acc. induction comps as [|c comps IH]; intros acc.
  - intros _. cbn. by rewrite app_nil_r.
  - cbn [forallb]. intros [Hc Hrest]%andb_true_iff.
    apply plain_inv in Hc as (_ & H1 & H2 & H3 & _).
    cbn [PosixPath.norm_comps]. rewrite H1, H2, H3. cbn.
    rewrite IH by done. cbn. by rewrite <-app_assoc.
Qed.

Lemma absolute_cons c comps :
  plain c = true ->
  ∃ x rest, Ascii.eqb PosixPath.sep_char x = false ∧
            absolute (c :: comps) = String PosixPath.sep_char (String x rest).
Proof.
  intros (x & c' & -> & Hx)%plain_head. unfold absolute. rewrite sep_append.
  destruct comps as [|c2 comps].
  - exists x, c'. done.
  - exists x, (c' +:+ String PosixPath.sep_char
                       (PyStr.join PosixPath.sep (c2 :: comps))).
    split; [done|]. by rewrite join_cons2, append_cons.
Qed.

(** [normpath] leaves an absolute path of plain components as it is. *)
Lemma normpath_absolute comps :
  forallb plain comps = true ->
  PosixPath.normpath (absolute comps) = absolute comps.
Proof.
  intros Hplain. destruct comps as [|c comps]; [reflexivity|].
  assert (Hc : plain c = true) by (cbn in Hplain; by apply andb_true_iff in Hplain as [? _]).
  destruct (absolute_cons c comps Hc) as (x & rest & Hx & Hshape).
  assert (String.eqb (absolute (c :: comps)) "" = false) as E0
    by (by rewrite Hshape).
  assert (PyStr.startswith (absolute (c :: comps)) PosixPath.sep = true) as E1.
  { rewrite Hshape. unfold PyStr.startswith. cbn. by destruct rest. }
  assert (PyStr.startswith (absolute (c :: comps)) "//" = false) as E2.
  { rewrite Hshape. unfold PyStr.startswith. cbn [String.prefix].
    apply Ascii.eqb_neq in Hx. unfold PosixPath.sep_char in *.
    repeat (destruct (ascii_dec _ _)); done. }
  assert (PosixPath.norm_comps 1 ("" :: c :: comps) [] = c :: comps) as E3.
  { change (PosixPath.norm_comps 1 ("" :: c :: comps) [])
      with (PosixPath.norm_comps 1 (c :: comps) []).
    by rewrite norm_comps_plain. }
  unfold PosixPath.normpath.
  rewrite split_absolute by done. rewrite E0, !E1, !E2. cbn [andb].
  rewrite !E3. fold (absolute (c :: comps)). by rewrite E0.
Qed.

Lemma filter_plain l :
  forallb plain l = true ->
  List.filter (λ x, negb (String.eqb x "")) l = l.
Proof.
  induction l as [|d l IH]; [done|]. cbn [forallb List.filter].
  intros [Hd Hl]%andb_true_iff.
  apply plain_inv in Hd as (_ & -> & _). cbn [negb]. by rewrite IH.
Qed.

Lemma components_absolute comps :
  forallb plain comps = true ->
  PosixRel.components (absolute comps) = comps.
Proof.
  intros Hplain. unfold PosixRel.components.
  destruct comps as [|c comps]; [reflexivity|].
  rewrite split_absolute by done.
  change (List.filter (λ x, negb (String.eqb x "")) (c :: comps) = c :: comps).
  by apply filter_plain.
Qed.

Lemma absolute_nonempty comps : absolute comps ≠ "".
Proof. unfold absolute. by rewrite sep_append. Qed.

Lemma abspath_absolute cwd comps :
  forallb plain comps = true ->
  PosixRel.abspath cwd (absolute comps) = absolute comps.
Proof.
  intros Hplain. unfold PosixRel.abspath.
  assert (PyStr.startswith (absolute comps) PosixPath.sep = true) as ->.
  { unfold absolute. rewrite sep_append. cbn.
    by destruct (PyStr.join PosixPath.sep comps). }
  by apply normpath_absolute.
Qed.

Lemma list_lt_app rs ps : PosixRel.list_lt (rs ++ ps) rs = false.
Proof.
  induction rs as [|r rs IH]; [by destruct ps|]. cbn.
  by rewrite String.eqb_refl.
Qed.

Lemma common_app rs ps : PosixRel.common rs (rs ++ ps) = Ok rs.
Proof.
  induction rs as [|r rs IH]; [done|]. cbn.
  by rewrite String.eqb_refl, IH.
Qed.

Lemma commonprefix_app rs ps : PosixRel.commonprefix rs (rs ++ ps) = Ok rs.
Proof.
  unfold PosixRel.commonprefix, PosixRel.min2, PosixRel.max2.
  rewrite list_lt_app. destruct (PosixRel.list_lt rs (rs ++ ps)).
  - apply common_app.
  - rewrite <-(app_nil_r rs) at 2. apply common_app.
Qed.

Lemma endswith_sep_app x b :
  b ≠ "" ->
  PyStr.endswith (x +:+ b) PosixPath.sep = PyStr.endswith b PosixPath.sep.
Proof.
  intros Hb. induction x as [|c x IH]; [done|].
  rewrite append_cons. cbn [PyStr.endswith]. rewrite IH.
  destruct (x +:+ b) eqn:E.
  - destruct x; [by rewrite append_nil_l in E|by rewrite append_cons in E].
  - cbn. by destruct (Ascii.eqb c "/").
Qed.

Lemma endswith_sep_plain c :
  has_char (Ascii.eqb PosixPath.sep_char) c = false ->
  PyStr.endswith c PosixPath.sep = false.
Proof.
  induction c as [|x c IH]; [done|]. cbn [has_char PyStr.endswith].
  intros [Hx Hc]%orb_false_iff. rewrite (IH Hc), orb_false_r.
  cbn. rewrite Ascii.eqb_sym. unfold PosixPath.sep_char in Hx. by rewrite Hx.
Qed.

Lemma join_cons_app a r rest :
  PyStr.join PosixPath.sep ((a +:+ PosixPath.sep +:+ r) :: rest) =
    a +:+ PosixPath.sep +:+ PyStr.join PosixPath.sep (r :: rest).
Proof.
  destruct rest as [|r2 rest]; [done|].
  cbn [PyStr.join]. by rewrite !append_assoc.
Qed.

Lemma fold_join2 rest a :
  a ≠ "" -> PyStr.endswith a PosixPath.sep = false ->
  forallb plain rest = true ->
  fold_left PosixPath.join2 rest a = PyStr.join PosixPath.sep (a :: rest).
Proof.
  revert a. induction rest as [|r rest IH]; intros a Ha Hend; [done|].
  cbn [forallb fold_left]. intros [Hr Hrest]%andb_true_iff.
  destruct (plain_head r Hr) as (x & r' & -> & Hx).
  apply plain_inv in Hr as (Hrne & _ & _ & _ & Hsep).
  assert (PosixPath.join2 a (String x r') =
            a +:+ PosixPath.sep +:+ String x r') as ->.
  { unfold PosixPath.join2, PyStr.startswith, PosixPath.sep in *.
    cbn [String.prefix]. unfold PosixPath.sep_char in Hx.
    destruct (ascii_dec "/" x) as [<-|_]; [done|].
    apply String.eqb_neq in Ha. rewrite Ha, Hend. reflexivity. }
  rewrite IH.
  - apply join_cons_app.
  - apply append_nonempty_r. by rewrite sep_append.
  - rewrite endswith_sep_app by (by rewrite sep_append).
    rewrite endswith_sep_app by done. by apply endswith_sep_plain.
  - done.
Qed.

Lemma join_all_plain comps :
  forallb plain comps = true ->
  PosixRel.join_all comps = PyStr.join PosixPath.sep comps.
Proof.
  destruct comps as [|c rest]; [done|]. cbn [forallb].
  intros [Hc Hrest]%andb_true_iff. unfold PosixRel.join_all, PosixPath.join.
  apply plain_inv in Hc as (Hne & _ & _ & _ & Hsep).
  apply fold_join2; [done| |done]. by apply endswith_sep_plain.
Qed.

(** [relpath] of a path below a directory, both absolute and made of plain
    components: the components below the directory, joined. *)
Lemma relpath_below cwd rs ps :
  forallb plain rs = true -> forallb plain ps = true -> ps ≠ [] ->
  PosixRel.relpath cwd (absolute (rs ++ ps)) (absolute rs) =
    Ok (PyStr.join PosixPath.sep ps).
Proof.
  intros Hrs Hps Hne. unfold PosixRel.relpath.
  assert (forallb plain (rs ++ ps) = true) as Hall
    by (rewrite forallb_app; by rewrite Hrs, Hps).
  rewrite (proj2 (String.eqb_neq _ _) (absolute_nonempty _)).
  rewrite !abspath_absolute, !components_absolute by done.
  rewrite commonprefix_app. cbv zeta.
  rewrite Nat.sub_diag, drop_app_length. cbn [replicate app].
  destruct ps as [|p ps]; [done|]. by rewrite join_all_plain.
Qed.

Lemma join_plain_inj ps1 ps2 :
  ps1 ≠ [] -> ps2 ≠ [] ->
  forallb plain ps1 = true -> forallb plain ps2 = true ->
  PyStr.join PosixPath.sep ps1 = PyStr.join PosixPath.sep ps2 -> ps1 = ps2.
Proof.
  intros H1 H2 Hp1 Hp2 Heq.
  by rewrite <-(split_join ps1), <-(split_join ps2), Heq.
Qed.

(** ** The report of a graph below the project root *)

Lemma map_outcome_elem {A B} (f : A -> outcome B) (l : list A) ys y :
  map_outcome f l = Ok ys ->
  y ∈ ys ↔ ∃ x, x ∈ l ∧ f x = Ok y.
Proof.
  revert ys. induction l as [|x l IH]; intros ys.
  - cbn. intros [= <-]. split; [by intros ?%elem_of_nil|].
    by intros (x & ?%elem_of_nil & _).
  - cbn. destruct (f x) as [y0|e] eqn:Hx; [|done].
    destruct (map_outcome f l) as [ys0|e] eqn:Hl; [|done].
    intros [= <-]. rewrite elem_of_cons, (IH ys0 eq_refl). split.
    + intros [->|(x' & Hin & Hf)]; [exists x|exists x']; split; try done;
        [by left|by right].
    + intros (x' & [->|Hin]%elem_of_cons & Hf).
      * left. congruence.
      * right. by exists x'.
Qed.

Lemma relpath_below_inv cwd rs path qs :
  forallb plain rs = true -> below rs path ->
  qs ≠ [] -> forallb plain qs = true ->
  PosixRel.relpath cwd path (absolute rs) = Ok (PyStr.join PosixPath.sep qs) ->
  path = absolute (rs ++ qs).
Proof.
  intros Hrs (ps & Hne & Hps & ->) Hqs Hplain.
  rewrite relpath_below by done. intros [= Heq].
  by rewrite (join_plain_inj ps qs).
Qed.

(** X19: when the project root is an absolute path of plain components
    and every key and target of the graph lies below it,
    [get_dependency_graph] has, under the root-relative path of each key, a
    list that holds exactly the root-relative paths of the targets of that
    key. *)
Theorem report_is_relative (cwd : string) (self : ProjectAnalyzer)
  (root_comps : list string) (report : gmap string (list string)) :
  forallb plain root_comps = true ->
  project_root self = absolute root_comps ->
  (∀ k deps, file_dependencies self !! k = Some deps ->
             below root_comps k ∧ ∀ t, t ∈ deps -> below root_comps t) ->
  get_dependency_graph cwd self = Ok report ->
  ∀ key_comps deps,
    key_comps ≠ [] -> forallb plain key_comps = true ->
    file_dependencies self !! absolute (root_comps ++ key_comps) = Some deps ->
    ∃ listed,
      report !! PyStr.join PosixPath.sep key_comps = Some listed ∧
      ∀ target_comps,
        target_comps ≠ [] -> forallb plain target_comps = true ->
        (PyStr.join PosixPath.sep target_comps ∈ listed ↔
         absolute (root_comps ++ target_comps) ∈ deps).
Proof.
  intros Hroot Hself Hbelow Hrun ps deps Hps Hplain Hkey.
  destruct (report_entries cwd self report Hrun) as [Hsound Hall].
  rewrite Hself in Hsound, Hall.
  destruct (Hall _ _ Hkey) as (k' & Hk' & [listed Hlisted]).
  rewrite relpath_below in Hk' by done. injection Hk' as <-.
  exists listed. split; [done|].
  destruct (Hsound _ _ Hlisted) as (k0 & deps0 & Hk0 & Hrel0 & Hvals).
  destruct (Hbelow _ _ Hk0) as [Hk0below Htargets].
  apply relpath_below_inv in Hrel0; [|done..]. subst k0.
  rewrite Hkey in Hk0. injection Hk0 as <-.
  intros qs Hqs Hqplain. rewrite (map_outcome_elem _ _ _ _ Hvals). split.
  - intros (v & Hv%elem_of_elements & Hrel).
    apply relpath_below_inv in Hrel; [by subst v|done|by apply Htargets|done..].
  - intros Hin. exists (absolute (root_comps ++ qs)).
    split; [by apply elem_of_elements|]. by apply relpath_below.
Qed.

(** ** Dart files, end to end *)

Lemma finditer_from_no_keyword skip s :
  Rules.occurs "import" s = false -> DartRegex.finditer_from skip s = [].
Proof.
  revert skip. induction s as [|c s IH]; intros skip; [done|].
  cbn [Rules.occurs DartRegex.finditer_from].
  intros [Hhere Hrest]%orb_false_iff. destruct skip as [|k]; [|by apply IH].
  unfold DartRegex.match_at. rewrite Hhere. by apply IH.
Qed.

(** X20: a content in which the word [import] does not occur yields no raw
    import; the empty content in particular. *)
Theorem dart_no_keyword_no_import (content : string) :
  Rules.occurs "import" content = false ->
  DartRegex.finditer_groups content = [].
Proof. apply finditer_from_no_keyword. Qed.

(** X21: a collected [.dart] file whose content is [import 'path';], for a
    non-empty path without newline and quote, has one entry in the final
    graph, made of the candidate path of that import, when the candidate
    exists, and no entry when it does not. *)
Theorem dart_single_import (w : World) (root file_path path : string) :
  file_path ∈ CollectedSet w root ->
  PyStr.endswith file_path ".dart" = true ->
  open_read w file_path = Ok (dart_import path) ->
  path ≠ "" ->
  has_char is_newline path = false ->
  has_char DartRegex.is_quote path = false ->
  DependencyGraph w root !! file_path =
    match os_path_exists w (target_path_of root file_path path) with
    | Ok true => Some {[target_path_of root file_path path]}
    | _ => None
    end.
Proof.
  rewrite CollectedSet_eq. intros Hin Hdart Hread Hne Hn Hq.
  assert (file_targets w root file_path =
            match resolved w root file_path path with
            | Some t => {[t]}
            | None => ∅
            end) as Ht.
  { unfold file_targets, file_imports, raw_imports, targets.
    rewrite Hread, (endswith_dart_not_py _ Hdart), Hdart.
    rewrite finditer_groups_dart_import by done. cbn [omap list_omap].
    destruct (resolved w root file_path path); cbn; set_solver. }
  rewrite lookup_DependencyGraph, Ht. unfold resolved.
  destruct (os_path_exists w (target_path_of root file_path path))
    as [[|]|e]; case_decide as H; try done; destruct H; try done.
Qed.

(** ** The extra properties on the projects of [Scenario] *)

Section Extras_on_scenarios.
Import Scenario.


(** The two files of [dart_package], scanned in either order. *)
Lemma scan_order_irrelevant_witness :
  scan_loop dart_package_world
    ["/proj/main.dart"; "/proj/lib/app/utils.dart"] (__init__ "/proj") =
  scan_loop dart_package_world
    ["/proj/lib/app/utils.dart"; "/proj/main.dart"] (__init__ "/proj").
Proof. apply scan_order_irrelevant. apply perm_swap. Defined.

(** The Kotlin file of [mixed_project]. *)
Lemma other_languages_no_edges_witness :
  DependencyGraph mixed_project_world "/proj" !! "/proj/Main.kt" = None ∧
  "/proj/Main.kt" ∈ UsedSet mixed_project_world "/proj" ∧
  "/proj/Main.kt" ∉ UnusedSet mixed_project_world "/proj".
Proof.
  destruct (other_languages_no_edges mixed_project_world "/proj"
              "/proj/Main.kt" eq_refl eq_refl) as [Hnone Hused].
  split; [exact Hnone|]. apply Hused.
  - vm_compute. reflexivity.
  - exists "import com.example.Util". vm_compute. reflexivity.
Defined.

(** The edge of [dart_package]. *)
Lemma edge_ends_are_used_witness :
  has_edge (DependencyGraph dart_package_world "/proj")
    "/proj/main.dart" "/proj/lib/app/utils.dart" ∧
  "/proj/main.dart" ∈ UsedSet dart_package_world "/proj" ∧
  "/proj/lib/app/utils.dart" ∈ UsedSet dart_package_world "/proj" ∧
  ("/proj/main.dart" ∉ UnusedSet dart_package_world "/proj") ∧
  ("/proj/lib/app/utils.dart" ∉ UnusedSet dart_package_world "/proj").
Proof.
  assert (has_edge (DependencyGraph dart_package_world "/proj")
            "/proj/main.dart" "/proj/lib/app/utils.dart") as H.
  { exists {["/proj/lib/app/utils.dart"]}. split; [|set_solver].
    vm_compute. reflexivity. }
  split; [exact H|]. exact (edge_ends_are_used _ _ _ _ H).
Defined.

(** The import of [main.dart] in [dart_package]. *)
Lemma dart_imports_shape_witness :
  ∃ c rest,
    "package:app/utils.dart" = String c rest ∧
    has_char is_newline "package:app/utils.dart" = false ∧
    has_char DartRegex.is_quote rest = false.
Proof.
  apply (dart_imports_shape "import 'package:app/utils.dart';").
  vm_compute. left.
Defined.

Lemma dart_import_round_trip_witness :
  DartRegex.finditer_groups (dart_import "package:app/utils.dart") =
    ["package:app/utils.dart"].
Proof. apply dart_import_round_trip; [done|reflexivity..]. Defined.

Lemma dart_no_keyword_no_import_witness :
  DartRegex.finditer_groups "export 'a.dart';" = [].
Proof. apply dart_no_keyword_no_import. reflexivity. Defined.

Lemma dart_single_import_witness :
  DependencyGraph dart_package_world "/proj" !! "/proj/main.dart" =
    match os_path_exists dart_package_world
            (target_path_of "/proj" "/proj/main.dart" "package:app/utils.dart")
    with
    | Ok true =>
        Some {[target_path_of "/proj" "/proj/main.dart" "package:app/utils.dart"]}
    | _ => None
    end.
Proof.
  apply dart_single_import; try (vm_compute; reflexivity). done.
Defined.

(** The report of [dart_package], from the working directory [/]. *)
Lemma dart_package_report :
  get_dependency_graph "/" (final_state dart_package_world "/proj") =
    Ok {["main.dart" := ["lib/app/utils.dart"]]}.
Proof. vm_compute. reflexivity. Qed.

Lemma get_dependency_graph_entries_witness :
  ∃ k deps,
    file_dependencies (final_state dart_package_world "/proj") !! k = Some deps ∧
    PosixRel.relpath "/" k "/proj" = Ok "main.dart" ∧
    map_outcome (λ v, PosixRel.relpath "/" v "/proj") (elements deps)
      = Ok ["lib/app/utils.dart"].
Proof.
  destruct (get_dependency_graph_entries "/"
              (final_state dart_package_world "/proj") _ dart_package_report)
    as [H _].
  apply (H "main.dart" ["lib/app/utils.dart"]). vm_compute. reflexivity.
Defined.

Lemma dart_package_graph :
  file_dependencies (final_state dart_package_world "/proj") =
    {["/proj/main.dart" := {["/proj/lib/app/utils.dart"]}]}.
Proof. vm_compute. reflexivity. Qed.

Lemma report_is_relative_witness :
  ∃ listed,
    ({["main.dart" := ["lib/app/utils.dart"]]} : gmap string (list string))
      !! PyStr.join PosixPath.sep ["main.dart"] = Some listed ∧
    ∀ target_comps,
      target_comps ≠ [] -> forallb plain target_comps = true ->
      (PyStr.join PosixPath.sep target_comps ∈ listed ↔
       absolute (["proj"] ++ target_comps) ∈
         ({["/proj/lib/app/utils.dart"]} : gset string)).
Proof.
  apply (report_is_relative "/" (final_state dart_package_world "/proj")
           ["proj"] _ eq_refl).
  - vm_compute. reflexivity.
  - intros k deps. rewrite dart_package_graph.
    intros [<- <-]%lookup_singleton_Some. split.
    + exists ["main.dart"]. by vm_compute.
    + intros t ->%elem_of_singleton.
      exists ["lib"; "app"; "utils.dart"]. by vm_compute.
  - apply dart_package_report.
  - done.
  - reflexivity.
  - rewrite dart_package_graph. apply lookup_singleton_eq.
Defined.

End Extras_on_scenarios.

(** ** The Python analyzer and the log *)

(** X22: the nested loops of [_analyze_python_imports] amount to resolving,
    in order, the names the tree yields: every name of an [import], and the
    module of a [from ... import] when it has one; nothing at all when the
    content does not parse. *)
Theorem python_imports_resolved_in_order (w : World)
  (file_path content : string) (self : ProjectAnalyzer) :
  _analyze_python_imports w file_path content self =
    for_each
      (match ast_parse w content with
       | Ok tree => concat (node_imports <$> tree)
       | Raise _ => []
       end)
      (λ name, _resolve_import w file_path name) self.
Proof.
  rewrite _analyze_python_imports_run, for_each_resolve. reflexivity.
Qed.

Lemma elem_of_py_sorted x l : x ∈ py_sorted l ↔ x ∈ l.
Proof. unfold py_sorted. by rewrite merge_sort_Permutation. Qed.

Lemma final_graph_paths_nonempty w root k deps :
  file_dependencies (final_state w root) !! k = Some deps ->
  k ≠ "" ∧ ∀ v, v ∈ deps -> v ≠ "".
Proof.
  intros Hin. fold (DependencyGraph w root) in Hin.
  rewrite lookup_DependencyGraph in Hin. case_decide as H; [|done].
  destruct H as [Hk _]. injection Hin as <-. split.
  - by eapply collected_nonempty.
  - intros v (imp & _ & Hres)%elem_of_file_targets.
    apply resolved_Some in Hres as [-> _]. apply target_path_of_nonempty.
Qed.

(** X23: after an analysis, every [relpath] call of [_log_results]
    returns, for the files and targets of the graph and for the unused
    files: the report is logged without an exception. *)
Theorem log_results_returns (w : World) (cwd root : string) :
  ∃ lines, _log_results_paths cwd (final_state w root) = Ok lines.
Proof.
  unfold _log_results_paths. cbv zeta.
  match goal with
  | |- context [map_outcome ?f (map_to_list ?g)] =>
      destruct (map_outcome_returns f (map_to_list g)) as [graph_lines ->]
  end.
  { intros [k deps] Hin%elem_of_map_to_list. cbn [fst snd].
    destruct (final_graph_paths_nonempty _ _ _ _ Hin) as [Hk Hdeps].
    destruct (relpath_returns cwd k (project_root (final_state w root)) Hk)
      as [rel_file ->].
    destruct (map_outcome_returns
                (λ p, PosixRel.relpath cwd p (project_root (final_state w root)))
                (elements deps)) as [rel_deps ->]; [|by eexists].
    intros v Hv%elem_of_elements. by apply relpath_returns, Hdeps. }
  match goal with
  | |- context [map_outcome ?f (py_sorted ?l)] =>
      destruct (map_outcome_returns f (py_sorted l)) as [unused_lines ->]
  end; [|by eexists].
  intros f Hf%elem_of_py_sorted%elem_of_elements.
  apply relpath_returns. fold (UnusedSet w root) in Hf.
  rewrite UnusedSet_eq, FileUniverse_eq in Hf.
  apply (collected_nonempty w root). set_solver.
Qed.
